(** * Bulebule firmware: sensor sampling, encoder counters and the
      calibration sequencer.

    The development follows the C units of the firmware:
    - [Detection]: the logical sensor identifiers of [detection.h];
    - [Setup]: the ADC set-up, the injected-conversion interrupt handler
      and the [printf] loop of the main unit ([setup_adc], [adc1_2_isr],
      [main]);
    - [Encoder]: the quadrature timers of the main unit
      ([configure_timer_as_quadrature_encoder], [read_encoder_left],
      [read_encoder_right]) and the distance tracker that polls them;
    - [Floats]: the rounding of C [float] and [double] arithmetic;
    - [Calibration]: the procedures of [calibration.c] over a small
      state monad whose trace records every call to the motion controller;
    - [Board]: the motor driver, the status LED, the PWM and the console
      output of the main unit;
    - [Profiling]: the throughput probe of [calibration.c]. *)

From Stdlib Require Import ZArith List Lia Bool QArith Qround Qpower Lqa.
Import ListNotations.
Local Open Scope Z_scope.

(** ** Fixed-width integers *)

Definition wrap16 (z : Z) : Z := z mod 65536.

Definition wrap_s32 (z : Z) : Z := (z + 2147483648) mod 4294967296 - 2147483648.

Definition in_int32 (z : Z) : Prop := -2147483648 <= z < 2147483648.

(** ** detection.h *)

Module Detection.

Definition SENSOR_SIDE_LEFT : Z := 0.
Definition SENSOR_SIDE_RIGHT : Z := 1.
Definition SENSOR_FRONT_LEFT : Z := 2.
Definition SENSOR_FRONT_RIGHT : Z := 3.

End Detection.

(** ** The main unit: ADC set-up, interrupt handler, foreground reader *)

Module Setup.

(** The part of the ADC1 peripheral the firmware touches: the status
    register, the four injected data registers and the injected sequence
    (the channel converted at each rank). *)
Record adc : Type := mk_adc {
  ADC_SR : Z;
  ADC_JDR1 : Z;
  ADC_JDR2 : Z;
  ADC_JDR3 : Z;
  ADC_JDR4 : Z;
  injected_sequence : list Z
}.

Definition ADC_SR_JEOC : Z := Z.shiftl 1 2.

(** [adc_read_injected(adc, reg)]: the injected data register of rank
    [reg], and 0 for any other [reg]. *)
Definition adc_read_injected (a : adc) (reg : Z) : Z :=
  match reg with
  | 1 => ADC_JDR1 a
  | 2 => ADC_JDR2 a
  | 3 => ADC_JDR3 a
  | 4 => ADC_JDR4 a
  | _ => 0
  end.

(** [adc_set_injected_sequence(adc, length, channel)]. *)
Definition adc_set_injected_sequence (a : adc) (length : Z) (channel : list Z) : adc :=
  if (0 <=? length - 1) && (length - 1 <=? 3)
  then mk_adc (ADC_SR a) (ADC_JDR1 a) (ADC_JDR2 a) (ADC_JDR3 a) (ADC_JDR4 a)
              (firstn (Z.to_nat length) channel)
  else a.

(** The channel selection of [setup_adc]:
    [channel_array = {3, 4, 5, 6}], four injected conversions. *)
Definition channel_array : list Z := [3; 4; 5; 6].

Definition setup_adc (a : adc) : adc :=
  adc_set_injected_sequence a 4 channel_array.

(** [volatile uint16_t sensor_1, sensor_2, sensor_3, sensor_4]. *)
Record sensors : Type := mk_sensors {
  sensor_1 : Z;
  sensor_2 : Z;
  sensor_3 : Z;
  sensor_4 : Z
}.

Record machine : Type := mk_machine {
  adc1 : adc;
  globals : sensors
}.

(** [adc1_2_isr]: clear JEOC, then copy the four injected results into
    the globals (a [uint32_t] stored into a [uint16_t]). *)
Definition adc1_2_isr (m : machine) : machine :=
  let a := adc1 m in
  let a' := mk_adc (Z.land (ADC_SR a) (Z.lnot ADC_SR_JEOC))
                   (ADC_JDR1 a) (ADC_JDR2 a) (ADC_JDR3 a) (ADC_JDR4 a)
                   (injected_sequence a) in
  let g1 := wrap16 (adc_read_injected a' 1) in
  let g2 := wrap16 (adc_read_injected a' 2) in
  let g3 := wrap16 (adc_read_injected a' 3) in
  let g4 := wrap16 (adc_read_injected a' 4) in
  mk_machine a' (mk_sensors g1 g2 g3 g4).

(** The content of the global [sensor_k], for [k] from 1 to 4. *)
Definition sensor_global (g : sensors) (k : Z) : Z :=
  match k with
  | 1 => sensor_1 g
  | 2 => sensor_2 g
  | 3 => sensor_3 g
  | 4 => sensor_4 g
  | _ => 0
  end.

(** Modelled from the spec: the reading of a logical sensor, for which
    the given sources hold no code: they declare the identifiers of
    [detection.h] and the four globals, and never read a global by
    identifier. The design has the handler read the four converted values
    in order and publish them as one frame whose fields are, in order,
    side-left, side-right, front-left and front-right; [detection.h]
    numbers the sensors 0 to 3 in the same order. Sensor [id] is
    therefore read from the global written in place [id + 1],
    [sensor_(id + 1)]. *)
Definition sensor_reading (g : sensors) (id : Z) : Z := sensor_global g (id + 1).

(** One injected sweep as the hardware completes it: the conversion of
    rank [r] is the sample of the [r]-th channel of the injected
    sequence, and the end-of-conversion flag is raised once. *)
Definition complete_sweep (analog : Z -> Z) (a : adc) : adc :=
  let ch r := nth r (injected_sequence a) 0 in
  mk_adc (Z.lor (ADC_SR a) ADC_SR_JEOC)
         (analog (ch 0%nat)) (analog (ch 1%nat))
         (analog (ch 2%nat)) (analog (ch 3%nat))
         (injected_sequence a).

(** What happens on the single core while [main] evaluates the four
    arguments [sensor_1, sensor_2, sensor_3, sensor_4] of its [printf]:
    each argument is one volatile load, and the conversion interrupt,
    which [main] never masks, may run to completion before any load. *)
Inductive event : Type :=
| Sweep (analog : Z -> Z)
| Load (k : Z).

Definition step (st : machine * list Z) (e : event) : machine * list Z :=
  let (m, seen) := st in
  match e with
  | Sweep analog =>
      (adc1_2_isr (mk_machine (complete_sweep analog (adc1 m)) (globals m)), seen)
  | Load k => (m, seen ++ [sensor_global (globals m) k])
  end.

Definition run (evs : list event) (m : machine) : machine * list Z :=
  fold_left step evs (m, []).

(** The values the foreground ends up printing. *)
Definition observed (evs : list event) (m : machine) : list Z :=
  snd (run evs m).

(** The machine when [main] enters its loop: the ADC set up, the globals
    still zero. *)
Definition idle_machine : machine :=
  mk_machine (setup_adc (mk_adc 0 0 0 0 0 [])) (mk_sensors 0 0 0 0).

(** The frame held by the four globals, [sensor_1] first. *)
Definition frame_of (m : machine) : list Z :=
  map (sensor_global (globals m)) [1; 2; 3; 4].

(** The frame of one sweep, read off the converter: the conversion
    results of rank 1 to 4 as the completed sweep leaves them in the
    injected data registers, each cut to the 16 bits of a global. *)
Definition sweep_frame (analog : Z -> Z) (a : adc) : list Z :=
  let a' := complete_sweep analog a in
  map wrap16 [ADC_JDR1 a'; ADC_JDR2 a'; ADC_JDR3 a'; ADC_JDR4 a'].

(** The loads of one foreground read, in argument order. *)
Definition loads_of (evs : list event) : list Z :=
  flat_map (fun e => match e with Load k => [k] | Sweep _ => [] end) evs.

Definition sweeps_of (evs : list event) : list (Z -> Z) :=
  flat_map (fun e => match e with Sweep f => [f] | Load _ => [] end) evs.

Definition one_read (evs : list event) : Prop := loads_of evs = [1; 2; 3; 4].

(** A frame is whole when it is the start-up content of the globals or
    the four conversion results of one of the sweeps. *)
Definition whole_frame (evs : list event) (m : machine) (fr : list Z) : Prop :=
  fr = frame_of m \/
  exists analog, In analog (sweeps_of evs) /\ fr = sweep_frame analog (adc1 m).

(** The reading of the frame-atomicity requirement: whatever the
    interleaving, one foreground read sees a whole frame. *)
Definition torn_free : Prop :=
  forall (m : machine) (evs : list event),
    one_read evs -> whole_frame evs m (observed evs m).

End Setup.

(** ** Quadrature counters and the distance tracker *)

Module Encoder.

(** The registers of a general-purpose timer used by the encoder set-up:
    auto-reload, slave mode selection, the two input-capture selections,
    counter enable and the counter itself. *)
Record timer : Type := mk_timer {
  TIM_ARR : Z;
  TIM_SMCR_SMS : Z;
  TIM_IC1_IN : Z;
  TIM_IC2_IN : Z;
  TIM_CEN : bool;
  TIM_CNT : Z
}.

Definition TIM_IC_IN_TI1 : Z := 1.
Definition TIM_IC_IN_TI2 : Z := 2.

Definition timer_set_period (t : timer) (period : Z) : timer :=
  mk_timer period (TIM_SMCR_SMS t) (TIM_IC1_IN t) (TIM_IC2_IN t) (TIM_CEN t) (TIM_CNT t).

Definition timer_slave_set_mode (t : timer) (mode : Z) : timer :=
  mk_timer (TIM_ARR t) mode (TIM_IC1_IN t) (TIM_IC2_IN t) (TIM_CEN t) (TIM_CNT t).

Definition timer_ic_set_input_1 (t : timer) (inp : Z) : timer :=
  mk_timer (TIM_ARR t) (TIM_SMCR_SMS t) inp (TIM_IC2_IN t) (TIM_CEN t) (TIM_CNT t).

Definition timer_ic_set_input_2 (t : timer) (inp : Z) : timer :=
  mk_timer (TIM_ARR t) (TIM_SMCR_SMS t) (TIM_IC1_IN t) inp (TIM_CEN t) (TIM_CNT t).

Definition timer_enable_counter (t : timer) : timer :=
  mk_timer (TIM_ARR t) (TIM_SMCR_SMS t) (TIM_IC1_IN t) (TIM_IC2_IN t) true (TIM_CNT t).

Definition configure_timer_as_quadrature_encoder (t : timer) : timer :=
  let t := timer_set_period t 65535 in
  let t := timer_slave_set_mode t 3 in
  let t := timer_ic_set_input_1 t TIM_IC_IN_TI1 in
  let t := timer_ic_set_input_2 t TIM_IC_IN_TI2 in
  timer_enable_counter t.

(** [read_encoder_left] and [read_encoder_right]: [timer_get_counter]. *)
Definition read_encoder (t : timer) : Z := TIM_CNT t.

(** One quadrature edge. In encoder mode 3 an enabled counter counts
    every edge of both inputs: up to the auto-reload value and then to 0
    when the wheel turns forward, down to 0 and then to the auto-reload
    value when it turns backward. *)
Inductive edge : Type := Forward | Backward.

Definition counting (t : timer) : bool := TIM_CEN t && (TIM_SMCR_SMS t =? 3).

Definition wraps_on (t : timer) (e : edge) : bool :=
  counting t &&
  match e with
  | Forward => TIM_CNT t =? TIM_ARR t
  | Backward => TIM_CNT t =? 0
  end.

Definition next_count (t : timer) (e : edge) : Z :=
  match e with
  | Forward => if TIM_CNT t =? TIM_ARR t then 0 else TIM_CNT t + 1
  | Backward => if TIM_CNT t =? 0 then TIM_ARR t else TIM_CNT t - 1
  end.

Definition count_edge (t : timer) (e : edge) : timer :=
  if counting t
  then mk_timer (TIM_ARR t) (TIM_SMCR_SMS t) (TIM_IC1_IN t) (TIM_IC2_IN t) (TIM_CEN t)
                (next_count t e)
  else t.

Definition count_edges (es : list edge) (t : timer) : timer :=
  fold_left count_edge es t.

(** Number of times the counter wrapped while counting [es]. *)
Fixpoint wraps (es : list edge) (t : timer) : Z :=
  match es with
  | [] => 0
  | e :: es' => (if wraps_on t e then 1 else 0) + wraps es' (count_edge t e)
  end.

(** The true count of edges traversed, forward edges counted positive. *)
Fixpoint net_edges (es : list edge) : Z :=
  match es with
  | [] => 0
  | Forward :: es' => 1 + net_edges es'
  | Backward :: es' => net_edges es' - 1
  end.

(** Modelled from the spec: the tracker's poll operation, which is not
    part of the given sources. Per wheel it keeps the last raw counter
    value and the accumulated distance in micrometers, a signed
    accumulator. A poll computes [delta = (raw_new - raw_old) mod 2^16]
    and reinterprets it according to the counting convention, forward
    motion increasing the counter: the 16-bit difference is read as a
    signed count, so that a counter that went down yields a negative
    delta. The adjusted delta is scaled by the micrometers-per-count
    constant and added to the accumulator. *)
Record wheel : Type := mk_wheel {
  last_raw : Z;
  distance : Q
}.

Definition counter_delta (raw_old raw_new : Z) : Z := (raw_new - raw_old) mod 2 ^ 16.

Definition direction_adjusted (delta : Z) : Z :=
  if delta <? 2 ^ 15 then delta else delta - 2 ^ 16.

Definition poll_delta (raw_old raw_new : Z) : Z :=
  direction_adjusted (counter_delta raw_old raw_new).

Definition poll_wheel (micrometers_per_count : Q) (raw_new : Z) (w : wheel) : wheel :=
  mk_wheel raw_new
           (distance w + micrometers_per_count * inject_Z (poll_delta (last_raw w) raw_new))%Q.

(** Modelled from the spec: [reset_motion] takes the current raw counter
    as the new baseline and zeroes the accumulator. *)
Definition reset_wheel (raw : Z) : wheel := mk_wheel raw 0%Q.

Record tracker : Type := mk_tracker {
  left_wheel : wheel;
  right_wheel : wheel
}.

Definition poll (micrometers_per_count : Q) (tl tr : timer) (k : tracker) : tracker :=
  mk_tracker (poll_wheel micrometers_per_count (read_encoder tl) (left_wheel k))
             (poll_wheel micrometers_per_count (read_encoder tr) (right_wheel k)).

Definition average_distance (k : tracker) : Q :=
  ((distance (left_wheel k) + distance (right_wheel k)) / 2)%Q.

(** A run of one wheel: between two polls the wheel traverses the edges
    of one element of [runs]; the result is the counter, the tracker
    state and the per-poll deltas, oldest first. *)
Fixpoint drive (micrometers_per_count : Q) (runs : list (list edge))
         (t : timer) (w : wheel) : timer * wheel * list Z :=
  match runs with
  | [] => (t, w, [])
  | es :: runs' =>
      let t' := count_edges es t in
      let d := poll_delta (last_raw w) (read_encoder t') in
      let '(t'', w'', ds) :=
        drive micrometers_per_count runs' t' (poll_wheel micrometers_per_count (read_encoder t') w) in
      (t'', w'', d :: ds)
  end.

Definition total_edges (runs : list (list edge)) : Z :=
  fold_right Z.add 0 (map net_edges runs).

(** A timer set up as a quadrature encoder with its counter in range. *)
Definition encoder_ready (t : timer) : Prop :=
  counting t = true /\ TIM_ARR t = 65535 /\ 0 <= TIM_CNT t <= 65535.

(** The wrap-aware distance requirement as the specification words it:
    with at most one wrap between two readings, the direction-adjusted
    delta is the true count of edges traversed. *)
Definition one_wrap_delta_exact : Prop :=
  forall (t0 : timer) (es : list edge),
    let t := configure_timer_as_quadrature_encoder t0 in
    0 <= TIM_CNT t0 <= 65535 ->
    wraps es t <= 1 ->
    poll_delta (read_encoder t) (read_encoder (count_edges es t)) = net_edges es.

End Encoder.

(** ** Binary floating point *)

Module Floats.

(** The values of C [float] and [double] are carried as the rationals
    they denote, and the result of every floating-point operation and
    conversion is rounded to the precision of its type, to the nearest
    value with ties to even, as IEEE 754 arithmetic rounds it. The
    exponent range is not bounded: overflow, underflow and NaN are left
    out. *)

(** The nearest integer, ties to even. *)
Definition round_half_even (x : Q) : Z :=
  let f := Qfloor x in
  match (x - inject_Z f ?= 1 # 2)%Q with
  | Lt => f
  | Gt => f + 1
  | Eq => if Z.even f then f else f + 1
  end.

Definition pow2 (e : Z) : Q := (2 ^ e)%Q.

(** The binade of a positive [x]: the [e] with [2 ^ e <= x < 2 ^ (e + 1)]. *)
Definition binade (x : Q) : Z :=
  let e := Z.log2 (Qnum x) - Z.log2 (Zpos (Qden x)) in
  if Qle_bool (pow2 e) x then e else e - 1.

(** A positive [x] rounded to [p] significant bits. *)
Definition round_positive (p : Z) (x : Q) : Q :=
  let ulp := pow2 (binade x - (p - 1)) in
  Qred (inject_Z (round_half_even (x / ulp)) * ulp).

Definition round_to (p : Z) (x : Q) : Q :=
  match (x ?= 0)%Q with
  | Eq => 0%Q
  | Gt => round_positive p x
  | Lt => (- round_positive p (- x))%Q
  end.

Arguments round_to : simpl never.

(** A [double] has 53 significant bits and a [float] 24. *)
Definition to_double : Q -> Q := round_to 53.

Definition to_float : Q -> Q := round_to 24.

(** A bound on the relative error of one rounding to either type. *)
Definition rounding_error : Q := 1 # 10000000.

End Floats.

(** ** calibration.c *)

Module Calibration.

Import Floats.

(** C [float] and [double] values are carried as the rationals they
    denote. The procedures store, compare with zero and restore them,
    and the arithmetic written in the procedures is rounded where C
    rounds it: every [double] operation by [to_double], every conversion
    to [float] by [to_float]. The literals [0.] and [4.] are exact. *)
Definition float : Type := Q.

(** Conversion of a floating value to an integer type: truncation. *)
Definition float_to_int (x : float) : Z := Z.quot (Qnum x) (Zpos (Qden x)).

(** Conversion to [int32_t], which C defines when the truncated value is
    in range. *)
Definition float_to_int32 (x : float) : Z := wrap_s32 (float_to_int x).

Inductive log_record : Type :=
| LinearSpeed
| AngularSpeed
| FrontSensorsCalibration.

(** The calls a procedure makes to the motion controller, the platform
    and the logging sink. *)
Inductive call : Type :=
| DisableWallsControl
| EnableMotorControl
| SideSensorsControl (value : bool)
| FrontSensorsControl (value : bool)
| SideSensorsCalibration
| SetTargetLinearSpeed (speed : float)
| SetTargetAngularSpeed (speed : float)
| SetLinearAcceleration (value : float)
| SetLinearDeceleration (value : float)
| SetMaxLinearSpeed (value : float)
| Accelerate (start : Z) (distance : float)
| Decelerate (start : Z) (distance : float) (speed : float)
| ResetControlErrors
| ResetMotion
| Log (record : log_record).

Record clock : Type := mk_clock {
  ticks : Z;
  polls : nat
}.

Record controls : Type := mk_controls {
  side_sensors : bool;
  front_sensors : bool;
  motor : bool
}.

Record targets : Type := mk_targets {
  target_linear_speed : float;
  target_angular_speed : float
}.

Record config : Type := mk_config {
  linear_acceleration : float;
  linear_deceleration : float;
  max_linear_speed : float
}.

(** What a procedure can observe and change: the tick counter and the
    number of encoder polls made so far, the control switches, the
    commanded speeds and the motion configuration. Ticks pass while the
    foreground sleeps; the calls themselves take no ticks. *)
Record status : Type := mk_status {
  clk : clock;
  ctl : controls;
  tgt : targets;
  cfg : config
}.

(** A trace entry is a call together with the status it was made in. *)
Definition entry : Type := (status * call)%type.

Record world : Type := mk_world {
  now : status;
  trace : list entry
}.

(** Foreground code either returns or is still inside a loop when the
    fuel of the model runs out; both carry the world reached. *)
Inductive outcome (A : Type) : Type :=
| Done (a : A) (w : world)
| Spin (w : world).
Arguments Done {A} a w.
Arguments Spin {A} w.

Definition M (A : Type) : Type := world -> outcome A.

Definition ret {A : Type} (a : A) : M A := fun w => Done a w.

Definition bind {A B : Type} (c : M A) (k : A -> M B) : M B :=
  fun w =>
    match c w with
    | Done a w' => k a w'
    | Spin w' => Spin w'
    end.

Notation "x <- c ;; k" := (bind c (fun x => k))
  (at level 61, c at next level, right associativity).
Notation "c ;; k" := (bind c (fun _ => k))
  (at level 61, right associativity).

Definition final {A : Type} (o : outcome A) : world :=
  match o with
  | Done _ w => w
  | Spin w => w
  end.

Definition emit (c : call) : M unit :=
  fun w => Done tt (mk_world (now w) (trace w ++ [(now w, c)])).

Definition modify (f : status -> status) : M unit :=
  fun w => Done tt (mk_world (f (now w)) (trace w)).

Definition gets {A : Type} (f : status -> A) : M A :=
  fun w => Done (f (now w)) w.

Definition with_clk (f : clock -> clock) (s : status) : status :=
  mk_status (f (clk s)) (ctl s) (tgt s) (cfg s).

Definition with_ctl (f : controls -> controls) (s : status) : status :=
  mk_status (clk s) (f (ctl s)) (tgt s) (cfg s).

Definition with_tgt (f : targets -> targets) (s : status) : status :=
  mk_status (clk s) (ctl s) (f (tgt s)) (cfg s).

Definition with_cfg (f : config -> config) (s : status) : status :=
  mk_status (clk s) (ctl s) (tgt s) (f (cfg s)).

Definition advance (n : Z) (c : clock) : clock := mk_clock (ticks c + n) (polls c).

Definition polled (c : clock) : clock := mk_clock (ticks c) (S (polls c)).

(** *** The interface consumed from the motion controller and the platform

    None of these functions is part of the given sources. Each records
    its call in the trace; the switches, setters and getters act on the
    status as the interface description says, and the ramp helpers, the
    calibration helper and the resets are recorded only. *)

(** Modelled from the spec: [side_sensors_control], the switch of the
    side-sensor-based safety control. *)
Definition side_sensors_control (value : bool) : M unit :=
  emit (SideSensorsControl value) ;;
  modify (with_ctl (fun c => mk_controls value (front_sensors c) (motor c))).

(** Modelled from the spec: [front_sensors_control], the switch of the
    front-sensor-based safety control. *)
Definition front_sensors_control (value : bool) : M unit :=
  emit (FrontSensorsControl value) ;;
  modify (with_ctl (fun c => mk_controls (side_sensors c) value (motor c))).

(** Modelled from the spec: [disable_walls_control], which disables the
    side- and front-sensor-based safety control. *)
Definition disable_walls_control : M unit :=
  emit DisableWallsControl ;;
  modify (with_ctl (fun c => mk_controls false false (motor c))).

(** Modelled from the spec: [enable_motor_control], which enables speed
    and position control. *)
Definition enable_motor_control : M unit :=
  emit EnableMotorControl ;;
  modify (with_ctl (fun c => mk_controls (side_sensors c) (front_sensors c) true)).

(** Modelled from the spec: [set_target_linear_speed], the setter of the
    target linear speed. *)
Definition set_target_linear_speed (speed : float) : M unit :=
  emit (SetTargetLinearSpeed speed) ;;
  modify (with_tgt (fun t => mk_targets speed (target_angular_speed t))).

(** Modelled from the spec: [set_target_angular_speed], the setter of
    the target angular speed. *)
Definition set_target_angular_speed (speed : float) : M unit :=
  emit (SetTargetAngularSpeed speed) ;;
  modify (with_tgt (fun t => mk_targets (target_linear_speed t) speed)).

(** Modelled from the spec: [get_linear_acceleration], the getter of the
    configured linear acceleration. *)
Definition get_linear_acceleration : M float := gets (fun s => linear_acceleration (cfg s)).

(** Modelled from the spec: [get_linear_deceleration], the getter of the
    configured linear deceleration. *)
Definition get_linear_deceleration : M float := gets (fun s => linear_deceleration (cfg s)).

(** Modelled from the spec: [get_max_linear_speed], the getter of the
    configured maximum linear speed. *)
Definition get_max_linear_speed : M float := gets (fun s => max_linear_speed (cfg s)).

(** Modelled from the spec: [set_linear_acceleration], the setter of the
    configured linear acceleration. *)
Definition set_linear_acceleration (value : float) : M unit :=
  emit (SetLinearAcceleration value) ;;
  modify (with_cfg (fun c => mk_config value (linear_deceleration c) (max_linear_speed c))).

(** Modelled from the spec: [set_linear_deceleration], the setter of the
    configured linear deceleration. *)
Definition set_linear_deceleration (value : float) : M unit :=
  emit (SetLinearDeceleration value) ;;
  modify (with_cfg (fun c => mk_config (linear_acceleration c) value (max_linear_speed c))).

(** Modelled from the spec: [set_max_linear_speed], the setter of the
    configured maximum linear speed. *)
Definition set_max_linear_speed (value : float) : M unit :=
  emit (SetMaxLinearSpeed value) ;;
  modify (with_cfg (fun c => mk_config (linear_acceleration c) (linear_deceleration c) value)).

(** Modelled from the spec: [accelerate], the ramp helper of the motion
    controller; its ramp is outside the design and only the call is
    recorded. *)
Definition accelerate (start : Z) (distance : float) : M unit := emit (Accelerate start distance).

(** Modelled from the spec: [decelerate], the ramp helper of the motion
    controller; only the call is recorded. *)
Definition decelerate (start : Z) (distance speed : float) : M unit :=
  emit (Decelerate start distance speed).

(** Modelled from the spec: [side_sensors_calibration], of which the
    design says nothing; only the call is recorded. *)
Definition side_sensors_calibration : M unit := emit SideSensorsCalibration.

(** Modelled from the spec: [reset_control_errors], which resets the
    error accumulators of the controller; only the call is recorded. *)
Definition reset_control_errors : M unit := emit ResetControlErrors.

(** Modelled from the spec: [reset_motion], which takes the current raw
    counters as the new baseline of the encoder distances; the encoder
    readings are an arbitrary sequence here, and only the call is
    recorded. *)
Definition reset_motion : M unit := emit ResetMotion.

(** Modelled from the spec: [log_linear_speed], which emits one
    diagnostic record of the linear speed variables. *)
Definition log_linear_speed : M unit := emit (Log LinearSpeed).

(** Modelled from the spec: [log_angular_speed], which emits one
    diagnostic record of the angular speed variables. *)
Definition log_angular_speed : M unit := emit (Log AngularSpeed).

(** Modelled from the spec: [log_front_sensors_calibration], which emits
    one front-sensor calibration sample. *)
Definition log_front_sensors_calibration : M unit := emit (Log FrontSensorsCalibration).

(** Modelled from the spec: [sleep_ticks(n)], which blocks the
    foreground until [n] ticks have elapsed. *)
Definition sleep_ticks (n : Z) : M unit := modify (with_clk (advance n)).

(** [while (cond) body], with fuel. *)
Fixpoint while (fuel : nat) (cond : M bool) (body : M unit) : M unit :=
  match fuel with
  | O => fun w => Spin w
  | S fuel' =>
      b <- cond ;;
      if b then body ;; while fuel' cond body else ret tt
  end.

(** Modelled from the spec: [each(interval, action, total)], which is not
    part of the given sources. It invokes [action] once immediately, then
    repeatedly waits until [interval] ticks have elapsed and invokes
    [action] again, until the elapsed ticks reach [total]; the final
    interval runs short. The recursion is on a bound that suffices for
    every positive interval. *)
Fixpoint each_from (n : nat) (interval : Z) (action : M unit) (remaining : Z) : M unit :=
  action ;;
  if remaining <=? 0 then ret tt
  else
    sleep_ticks (Z.min interval remaining) ;;
    if remaining - Z.min interval remaining <=? 0 then ret tt
    else
      match n with
      | O => fun w => Spin w
      | S n' => each_from n' interval action (remaining - Z.min interval remaining)
      end.

Definition each (interval : Z) (action : M unit) (total : Z) : M unit :=
  each_from (Z.to_nat total) interval action total.

(** Signed 32-bit subtraction. *)
Definition int32_sub (a b : Z) : Z := wrap_s32 (a - b).

(** *** Vocabulary for traces *)

(** [triple J P c Q]: started in a status satisfying [P], the command
    [c] appends only entries satisfying [J] to the trace, whether it
    returns or not, and when it returns its result and status satisfy
    [Q]. *)
Definition triple {A : Type} (J : entry -> Prop) (P : status -> Prop)
           (c : M A) (Q : A -> status -> Prop) : Prop :=
  forall w, P (now w) ->
    exists es,
      trace (final (c w)) = trace w ++ es /\
      Forall J es /\
      match c w with
      | Done a w' => Q a (now w')
      | Spin _ => True
      end.

(** A property of the status that neither the passing of time, nor an
    encoder poll, nor a speed command, nor a configuration change can
    break. *)
Definition stable (P : status -> Prop) : Prop :=
  (forall s n, 0 <= n -> P s -> P (with_clk (advance n) s)) /\
  (forall s, P s -> P (with_clk polled s)) /\
  (forall s f, P s -> P (with_tgt f s)) /\
  (forall s f, P s -> P (with_cfg f s)).

(** [keeps P c]: [c] preserves [P] and makes all its calls under [P]. *)
Definition keeps {A : Type} (P : status -> Prop) (c : M A) : Prop :=
  triple (fun e => P (fst e)) P c (fun _ s => P s).

(** The status [dt] ticks and [dp] encoder polls later. *)
Definition shift (dt : Z) (dp : nat) (s : status) : status :=
  with_clk (fun c => mk_clock (ticks c + dt) (polls c + dp)) s.

Definition elapsed (dt : Z) (s : status) : status := with_clk (advance dt) s.

(** The status after [disable_walls_control] and [enable_motor_control]. *)
Definition under_control (s : status) : status :=
  with_ctl (fun _ => mk_controls false false true) s.

Definition commanding (linear angular : float) (s : status) : status :=
  with_tgt (fun _ => mk_targets linear angular) s.

(** Number of samples of a periodic task: one per started interval, and
    one when nothing is to be waited for. *)
Definition samples (interval total : Z) : nat :=
  Z.to_nat (Z.max 1 ((total + interval - 1) / interval)).

(** [count] log records, the first in status [s], one every [interval]
    ticks. *)
Definition log_entries (r : log_record) (interval : Z) (count : nat) (s : status) : list entry :=
  map (fun i => (elapsed (interval * Z.of_nat i) s, Log r)) (seq 0 count).

(** The log records of a polling loop that makes one encoder poll per
    iteration and sleeps [d] ticks after each record. *)
Definition polled_entries (r : log_record) (d : Z) (count : nat) (s : status) : list entry :=
  map (fun i => (shift (d * Z.of_nat i) (S i) s, Log r)) (seq 0 count).

Definition walls_off_motor_on (s : status) : Prop :=
  side_sensors (ctl s) = false /\ front_sensors (ctl s) = false /\ motor (ctl s) = true.

(** Commands that set the vehicle in motion: a nonzero target speed or a
    ramp. *)
Definition is_motion_command (c : call) : bool :=
  match c with
  | SetTargetLinearSpeed v | SetTargetAngularSpeed v => negb (Qeq_bool v 0)
  | Accelerate _ _ | Decelerate _ _ _ => true
  | _ => false
  end.

Section Procedures.

(** The encoder as the procedures see it: the value returned by the
    call number [k] of [get_encoder_average_micrometers], counted from 0. *)
Variable encoder_average_micrometers : nat -> Z.

(** The value [required_micrometers_to_speed] returns in a status. *)
Variable required_micrometers : status -> float -> float.

(** Constants defined outside the given sources, each taken to be a
    constant of type [double]: it enters the arithmetic as the double
    nearest to the value given here. *)
Variable PI : float.
Variable CELL_DIMENSION : float.
Variable WALL_WIDTH : float.
Variable MOUSE_TAIL : float.
Variable MOUSE_HEAD : float.
Variable MICROMETERS_PER_METER : float.

(** Modelled from the spec: [get_encoder_average_micrometers], which
    returns the average distance of the two wheels; here the next value
    of the encoder sequence. *)
Definition get_encoder_average_micrometers : M Z :=
  fun w => Done (encoder_average_micrometers (polls (clk (now w))))
                (mk_world (with_clk polled (now w)) (trace w)).

(** Modelled from the spec: [required_micrometers_to_speed], the
    distance required to reach [speed] from the current speed, a function
    of the status left open. *)
Definition required_micrometers_to_speed (speed : float) : M float :=
  gets (fun s => required_micrometers s speed).

Definition run_linear_speed_profile (fuel : nat) : M unit :=
  disable_walls_control ;;
  enable_motor_control ;;
  each 10 log_linear_speed 1000 ;;
  set_target_angular_speed 0%Q ;;
  max_speed <- get_max_linear_speed ;;
  set_target_linear_speed max_speed ;;
  start_micrometers <- get_encoder_average_micrometers ;;
  while fuel
    (x <- get_encoder_average_micrometers ;;
     ret (int32_sub x start_micrometers <? 500000))
    (log_linear_speed ;; sleep_ticks 1) ;;
  set_target_angular_speed 0%Q ;;
  set_target_linear_speed 0%Q ;;
  each 1 log_linear_speed 2000 ;;
  reset_motion.

Definition run_angular_speed_profile : M unit :=
  let target_angular_speed : float := to_float (to_double (4 * to_double PI)) in
  disable_walls_control ;;
  enable_motor_control ;;
  each 10 log_angular_speed 1000 ;;
  set_target_angular_speed target_angular_speed ;;
  set_target_linear_speed 0%Q ;;
  each 10 log_angular_speed
       (float_to_int
          (to_double (to_double (1000 * to_double (3 * to_double PI))
                      / target_angular_speed))) ;;
  set_target_angular_speed 0%Q ;;
  set_target_linear_speed 0%Q ;;
  each 10 log_angular_speed 2000 ;;
  reset_motion.

Definition run_static_turn_right_profile : M unit :=
  let target_angular_speed : float := to_float (to_double (4 * to_double PI)) in
  disable_walls_control ;;
  enable_motor_control ;;
  each 10 log_angular_speed 1000 ;;
  set_target_angular_speed target_angular_speed ;;
  set_target_linear_speed 0%Q ;;
  each 10 log_angular_speed
       (float_to_int
          (to_double (to_double (1000 * to_double (to_double PI / 2))
                      / target_angular_speed))) ;;
  set_target_angular_speed 0%Q ;;
  set_target_linear_speed 0%Q ;;
  each 10 log_angular_speed 200 ;;
  reset_motion.

Definition run_micrometers_per_count_calibration (cells : Z) : M unit :=
  linear_acceleration <- get_linear_acceleration ;;
  linear_deceleration <- get_linear_deceleration ;;
  max_linear_speed <- get_max_linear_speed ;;
  set_linear_acceleration 4%Q ;;
  set_linear_deceleration 4%Q ;;
  set_max_linear_speed (to_float (to_double (4 # 10))) ;;
  reset_motion ;;
  side_sensors_calibration ;;
  enable_motor_control ;;
  side_sensors_control true ;;
  front_sensors_control false ;;
  position <- get_encoder_average_micrometers ;;
  accelerate position
             (to_float
                (to_double
                   (to_double (to_double (to_double CELL_DIMENSION * inject_Z cells)
                               - to_double (to_double WALL_WIDTH / 2))
                    - to_double MOUSE_TAIL))) ;;
  disable_walls_control ;;
  position <- get_encoder_average_micrometers ;;
  decelerate position
             (to_float
                (to_double
                   (to_double (to_double CELL_DIMENSION
                               - to_double (to_double WALL_WIDTH / 2))
                    - to_double MOUSE_HEAD)))
             0%Q ;;
  reset_control_errors ;;
  set_linear_acceleration linear_acceleration ;;
  set_linear_deceleration linear_deceleration ;;
  set_max_linear_speed max_linear_speed ;;
  reset_motion.

Definition run_front_sensors_calibration (fuel : nat) : M unit :=
  linear_acceleration <- get_linear_acceleration ;;
  disable_walls_control ;;
  enable_motor_control ;;
  set_linear_acceleration 4%Q ;;
  position <- get_encoder_average_micrometers ;;
  let target_micrometers : Z :=
    float_to_int32
      (to_double (inject_Z position
                  + to_double (to_double (to_double (13 # 10) * to_double CELL_DIMENSION)
                               * to_double MICROMETERS_PER_METER))) in
  set_target_angular_speed 0%Q ;;
  set_target_linear_speed (to_float (to_double (3 # 10))) ;;
  stop <- required_micrometers_to_speed 0%Q ;;
  let micrometers_to_stop : Z := float_to_int32 stop in
  while fuel
    (x <- get_encoder_average_micrometers ;;
     ret (x <? int32_sub target_micrometers micrometers_to_stop))
    log_front_sensors_calibration ;;
  set_target_angular_speed 0%Q ;;
  set_target_linear_speed 0%Q ;;
  each 2 log_front_sensors_calibration 200 ;;
  set_linear_acceleration linear_acceleration ;;
  reset_motion.

End Procedures.

(** *** The traces of complete runs *)

(** The log records and commands of a linear speed profile entered in
    status [s0] whose travel loop iterates [n] times. *)
Definition linear_profile_trace (s0 : status) (n : nat) : list entry :=
  let s1 := under_control s0 in
  let vmax := max_linear_speed (cfg s0) in
  let s2 := commanding vmax 0%Q (elapsed 1000 s1) in
  let s3 := shift (Z.of_nat n) (S n) (shift 0 1 s2) in
  let s4 := commanding 0%Q 0%Q s3 in
  [(s0, DisableWallsControl);
   (with_ctl (fun c => mk_controls false false (motor c)) s0, EnableMotorControl)]
  ++ log_entries LinearSpeed 10 100 s1
  ++ [(elapsed 1000 s1, SetTargetAngularSpeed 0%Q);
      (commanding (target_linear_speed (tgt s0)) 0%Q (elapsed 1000 s1), SetTargetLinearSpeed vmax)]
  ++ polled_entries LinearSpeed 1 n (shift 0 1 s2)
  ++ [(s3, SetTargetAngularSpeed 0%Q); (s3, SetTargetLinearSpeed 0%Q)]
  ++ log_entries LinearSpeed 1 2000 s4
  ++ [(elapsed 2000 s4, ResetMotion)].

(** The log records and commands of an angular profile entered in status
    [s0], with target angular speed [speed], [hold] ticks at that speed
    and [settle] ticks after the zero command. *)
Definition turn_profile_trace (s0 : status) (speed : float) (hold settle : Z) : list entry :=
  let s1 := under_control s0 in
  let s2 := commanding 0%Q speed (elapsed 1000 s1) in
  let s3 := commanding 0%Q 0%Q (elapsed hold s2) in
  [(s0, DisableWallsControl);
   (with_ctl (fun c => mk_controls false false (motor c)) s0, EnableMotorControl)]
  ++ log_entries AngularSpeed 10 100 s1
  ++ [(elapsed 1000 s1, SetTargetAngularSpeed speed);
      (commanding (target_linear_speed (tgt s0)) speed (elapsed 1000 s1), SetTargetLinearSpeed 0%Q)]
  ++ log_entries AngularSpeed 10 (samples 10 hold) s2
  ++ [(elapsed hold s2, SetTargetAngularSpeed 0%Q);
      (s3, SetTargetLinearSpeed 0%Q)]
  ++ log_entries AngularSpeed 10 (samples 10 settle) s3
  ++ [(elapsed settle s3, ResetMotion)].

(** The [float] both turn profiles command as target angular speed, and
    the ticks for which each holds it: the value its floating-point
    quotient takes as the integer argument of [each]. *)
Definition turn_speed (PI : float) : float := to_float (to_double (4 * to_double PI)).

Definition angular_hold (PI : float) : Z :=
  float_to_int
    (to_double (to_double (1000 * to_double (3 * to_double PI)) / turn_speed PI)).

Definition static_turn_hold (PI : float) : Z :=
  float_to_int
    (to_double (to_double (1000 * to_double (to_double PI / 2)) / turn_speed PI)).



Definition with_acceleration (a : float) (s : status) : status :=
  with_cfg (fun c => mk_config a (linear_deceleration c) (max_linear_speed c)) s.

(** The linear speed the front-sensor calibration commands: the literal
    [.3] passed as a [float]. *)
Definition approach_speed : float := to_float (to_double (3 # 10)).

(** The status in which the front-sensor calibration entered in [s0]
    asks for the distance required to stop, and the encoder value at which
    its approach loop ends: [target_micrometers - micrometers_to_stop]. *)
Definition front_query_status (s0 : status) : status :=
  commanding approach_speed 0%Q (with_clk polled (with_acceleration 4%Q (under_control s0))).

(** The [double] the front-sensor calibration computes for its target,
    and the [int32_t] it stores. *)
Definition front_target_double (encoder : nat -> Z)
           (CELL_DIMENSION MICROMETERS_PER_METER : float) (s0 : status) : float :=
  to_double (inject_Z (encoder (polls (clk s0)))
             + to_double (to_double (to_double (13 # 10) * to_double CELL_DIMENSION)
                          * to_double MICROMETERS_PER_METER)).

Definition front_target_micrometers (encoder : nat -> Z)
           (CELL_DIMENSION MICROMETERS_PER_METER : float) (s0 : status) : Z :=
  float_to_int32 (front_target_double encoder CELL_DIMENSION MICROMETERS_PER_METER s0).

Definition front_micrometers_to_stop (required : status -> float -> float) (s0 : status) : Z :=
  float_to_int32 (required (front_query_status s0) 0%Q).

(** The log records and commands of a front-sensor calibration entered
    in status [s0] whose approach loop iterates [n] times. *)
Definition front_calibration_trace (s0 : status) (n : nat) : list entry :=
  let s1 := with_clk polled (with_acceleration 4%Q (under_control s0)) in
  let s2 := front_query_status s0 in
  let s3 := shift 0 (S n) s2 in
  let s4 := commanding 0%Q 0%Q s3 in
  [(s0, DisableWallsControl);
   (with_ctl (fun c => mk_controls false false (motor c)) s0, EnableMotorControl);
   (under_control s0, SetLinearAcceleration 4%Q);
   (s1, SetTargetAngularSpeed 0%Q);
   (commanding (target_linear_speed (tgt s0)) 0%Q s1, SetTargetLinearSpeed approach_speed)]
  ++ polled_entries FrontSensorsCalibration 0 n s2
  ++ [(s3, SetTargetAngularSpeed 0%Q); (s3, SetTargetLinearSpeed 0%Q)]
  ++ log_entries FrontSensorsCalibration 2 100 s4
  ++ [(elapsed 200 s4, SetLinearAcceleration (linear_acceleration (cfg s0)));
      (with_acceleration (linear_acceleration (cfg s0)) (elapsed 200 s4), ResetMotion)].

(** The maximum linear speed of the micrometers-per-count calibration,
    the literal [0.4] passed as a [float], and the distances of its two
    ramps, computed in [double] and passed as [float]. *)
Definition calibration_speed : float := to_float (to_double (4 # 10)).

Definition ramp_up_distance (CELL_DIMENSION WALL_WIDTH MOUSE_TAIL : float) (cells : Z) : float :=
  to_float
    (to_double
       (to_double (to_double (to_double CELL_DIMENSION * inject_Z cells)
                   - to_double (to_double WALL_WIDTH / 2))
        - to_double MOUSE_TAIL)).

Definition ramp_down_distance (CELL_DIMENSION WALL_WIDTH MOUSE_HEAD : float) : float :=
  to_float
    (to_double
       (to_double (to_double CELL_DIMENSION - to_double (to_double WALL_WIDTH / 2))
        - to_double MOUSE_HEAD)).

(** The calls of a micrometers-per-count calibration over [cells] cells
    entered in status [s0]. *)
Definition micrometers_calibration_trace (encoder : nat -> Z)
           (CELL_DIMENSION WALL_WIDTH MOUSE_TAIL MOUSE_HEAD : float)
           (cells : Z) (s0 : status) : list entry :=
  let c0 := cfg s0 in
  let s1 := with_cfg (fun _ => mk_config 4%Q 4%Q calibration_speed) s0 in
  let s2 := with_ctl (fun c => mk_controls (side_sensors c) (front_sensors c) true) s1 in
  let s3 := with_ctl (fun c => mk_controls true (front_sensors c) true) s1 in
  let s4 := shift 0 1 (with_ctl (fun _ => mk_controls true false true) s1) in
  let s5 := shift 0 2 (with_ctl (fun _ => mk_controls false false true) s1) in
  [(s0, SetLinearAcceleration 4%Q);
   (with_acceleration 4%Q s0, SetLinearDeceleration 4%Q);
   (with_cfg (fun c => mk_config 4%Q 4%Q (max_linear_speed c)) s0,
    SetMaxLinearSpeed calibration_speed);
   (s1, ResetMotion);
   (s1, SideSensorsCalibration);
   (s1, EnableMotorControl);
   (s2, SideSensorsControl true);
   (s3, FrontSensorsControl false);
   (s4, Accelerate (encoder (polls (clk s0)))
                   (ramp_up_distance CELL_DIMENSION WALL_WIDTH MOUSE_TAIL cells));
   (s4, DisableWallsControl);
   (s5, Decelerate (encoder (S (polls (clk s0))))
                   (ramp_down_distance CELL_DIMENSION WALL_WIDTH MOUSE_HEAD) 0%Q);
   (s5, ResetControlErrors);
   (s5, SetLinearAcceleration (linear_acceleration c0));
   (with_acceleration (linear_acceleration c0) s5,
    SetLinearDeceleration (linear_deceleration c0));
   (with_cfg (fun c => mk_config (linear_acceleration c0) (linear_deceleration c0)
                                (max_linear_speed c)) s5,
    SetMaxLinearSpeed (max_linear_speed c0));
   (with_cfg (fun _ => c0) s5, ResetMotion)].

(** The linear speed profile returns when the encoder reaches the travel
    distance: the first [n] polls of the travel loop read less than
    500,000 micrometers since the phase start, the next one at least
    500,000, and the differences fit in 32 bits. *)
Definition reaches_travel_distance (encoder_average_micrometers : nat -> Z)
           (p0 n : nat) : Prop :=
  let travelled k :=
    encoder_average_micrometers (p0 + k)%nat - encoder_average_micrometers p0 in
  (forall k, (1 <= k <= S n)%nat -> in_int32 (travelled k)) /\
  (forall k, (1 <= k <= n)%nat -> travelled k < 500000) /\
  500000 <= travelled (S n).

(** The front-sensor calibration returns when the encoder reaches the
    stop threshold: the first [n] polls of the approach loop read less
    than [target_micrometers - micrometers_to_stop], the next one at
    least that, and the subtraction fits in 32 bits. *)
Definition reaches_stop_threshold (encoder_average_micrometers : nat -> Z)
           (required_micrometers : status -> float -> float)
           (CELL_DIMENSION MICROMETERS_PER_METER : float)
           (s0 : status) (n : nat) : Prop :=
  let p0 := polls (clk s0) in
  let target :=
    front_target_micrometers encoder_average_micrometers
      CELL_DIMENSION MICROMETERS_PER_METER s0 in
  let stopping_distance := front_micrometers_to_stop required_micrometers s0 in
  in_int32 (target - stopping_distance) /\
  (forall k, (1 <= k <= n)%nat ->
     encoder_average_micrometers (p0 + k)%nat < target - stopping_distance) /\
  target - stopping_distance <= encoder_average_micrometers (p0 + S n)%nat.

(** A run that switches walls control off and motor control on before
    anything else and makes every later call in that state. *)
Definition guarded_run (proc : M unit) (w : world) : Prop :=
  exists rest,
    trace (final (proc w))
    = trace w ++ (now w, DisableWallsControl)
              :: (with_ctl (fun c => mk_controls false false (motor c)) (now w),
                  EnableMotorControl)
              :: rest /\
    Forall (fun e : entry => walls_off_motor_on (fst e)) rest.

(** A trace in which every motion command is made with walls control
    off and motor control on. *)
Definition motion_guarded (tr : list entry) : Prop :=
  Forall (fun e : entry => is_motion_command (snd e) = true -> walls_off_motor_on (fst e)) tr.

(** A run that, once the controls are switched, logs 100 records of kind
    [r] at a 10-tick cadence and makes every other call at least 1000
    ticks after it was entered. *)
Definition waits_for_prelog (r : log_record) (proc : M unit) (w : world) : Prop :=
  exists rest,
    trace (final (proc w))
    = trace w ++ (now w, DisableWallsControl)
              :: (with_ctl (fun c => mk_controls false false (motor c)) (now w),
                  EnableMotorControl)
              :: log_entries r 10 100 (under_control (now w)) ++ rest /\
    Forall (fun e : entry => ticks (clk (now w)) + 1000 <= ticks (clk (fst e))) rest.

(** A vehicle at rest, and an encoder that advances by [step]
    micrometers between consecutive polls. *)
Definition rest_world : world :=
  mk_world (mk_status (mk_clock 0 0) (mk_controls true true false)
                      (mk_targets 0%Q 0%Q) (mk_config 2%Q 2%Q (1 # 2)))
           [].

Definition steady_encoder (step : Z) : nat -> Z := fun k => step * Z.of_nat k.

(** A motion controller that always needs 4 millimeters to stop. *)
Definition stop_after_4_millimeters : status -> float -> float := fun _ _ => 4000%Q.

End Calibration.

(** ** The main unit: motor driver, status LED, PWM and console output *)

Module Board.

(** [GPIO0] ... [GPIO15]: one bit per pin of a port. *)
Definition GPIO (n : Z) : Z := Z.shiftl 1 n.
Definition GPIO12 : Z := GPIO 12.
Definition GPIO13 : Z := GPIO 13.
Definition GPIO14 : Z := GPIO 14.
Definition GPIO15 : Z := GPIO 15.

(** [gpio_set], [gpio_clear] and [gpio_toggle] as they act on the output
    data register of a port. *)
Definition gpio_set (odr gpios : Z) : Z := Z.lor odr gpios.
Definition gpio_clear (odr gpios : Z) : Z := Z.ldiff odr gpios.
Definition gpio_toggle (odr gpios : Z) : Z := Z.lxor odr gpios.

(** [drive_forward], on the output data register of port B, and the
    content of the register after each of its two writes. *)
Definition drive_forward (gpiob : Z) : Z :=
  gpio_set (gpio_clear gpiob (Z.lor GPIO13 GPIO15)) (Z.lor GPIO12 GPIO14).

Definition drive_forward_writes (gpiob : Z) : list Z :=
  [gpio_clear gpiob (Z.lor GPIO13 GPIO15); drive_forward gpiob].

Definition drive_backward (gpiob : Z) : Z :=
  gpio_set (gpio_clear gpiob (Z.lor GPIO12 GPIO14)) (Z.lor GPIO13 GPIO15).

Definition drive_backward_writes (gpiob : Z) : list Z :=
  [gpio_clear gpiob (Z.lor GPIO12 GPIO14); drive_backward gpiob].

Definition drive_break (gpiob : Z) : Z :=
  gpio_set gpiob (Z.lor (Z.lor (Z.lor GPIO12 GPIO13) GPIO14) GPIO15).

(** A forward input and a backward input of the motor driver are high
    together. *)
Definition shorted (gpiob : Z) : bool :=
  (Z.testbit gpiob 12 || Z.testbit gpiob 14) && (Z.testbit gpiob 13 || Z.testbit gpiob 15).

(** [sys_tick_handler], on the output data register of port C. *)
Definition sys_tick_handler (gpioc : Z) : Z := gpio_toggle gpioc GPIO13.

(** Output compare modes of a timer channel. *)
Inductive oc_mode : Type :=
| TIM_OCM_FROZEN
| TIM_OCM_INACTIVE
| TIM_OCM_ACTIVE
| TIM_OCM_TOGGLE
| TIM_OCM_FORCE_LOW
| TIM_OCM_FORCE_HIGH
| TIM_OCM_PWM1
| TIM_OCM_PWM2.

(** The part of TIM3 that [setup_pwm] and the power setters write. *)
Record pwm_timer : Type := mk_pwm_timer {
  clock_division : Z;
  alignment : Z;
  direction : Z;
  prescaler : Z;
  repetition_counter : Z;
  preload : bool;
  continuous : bool;
  period : Z;
  oc3_mode : oc_mode;
  oc4_mode : oc_mode;
  oc3_value : Z;
  oc4_value : Z;
  oc3_output : bool;
  oc4_output : bool;
  counter_enabled : bool
}.

Definition TIM_CR1_CKD_CK_INT : Z := 0.
Definition TIM_CR1_CMS_EDGE : Z := 0.
Definition TIM_CR1_DIR_UP : Z := 0.

(** [timer_set_oc_value] on channel 3 and on channel 4: the compare
    register holds 16 bits. *)
Definition timer_set_oc3_value (t : pwm_timer) (value : Z) : pwm_timer :=
  mk_pwm_timer (clock_division t) (alignment t) (direction t)
               (prescaler t) (repetition_counter t) (preload t) (continuous t) (period t)
               (oc3_mode t) (oc4_mode t) (wrap16 value) (oc4_value t)
               (oc3_output t) (oc4_output t) (counter_enabled t).

Definition timer_set_oc4_value (t : pwm_timer) (value : Z) : pwm_timer :=
  mk_pwm_timer (clock_division t) (alignment t) (direction t)
               (prescaler t) (repetition_counter t) (preload t) (continuous t) (period t)
               (oc3_mode t) (oc4_mode t) (oc3_value t) (wrap16 value)
               (oc3_output t) (oc4_output t) (counter_enabled t).

(** [setup_pwm]: internal clock, edge-aligned, up-counting; prescaler 3,
    period 1000; both channels in PWM1 mode with compare value 0;
    outputs and counter enabled. *)
Definition setup_pwm (t : pwm_timer) : pwm_timer :=
  let t := mk_pwm_timer TIM_CR1_CKD_CK_INT TIM_CR1_CMS_EDGE TIM_CR1_DIR_UP
                        3 0 true true 1000
                        (oc3_mode t) (oc4_mode t) (oc3_value t) (oc4_value t)
                        (oc3_output t) (oc4_output t) (counter_enabled t) in
  let t := mk_pwm_timer (clock_division t) (alignment t) (direction t)
                        (prescaler t) (repetition_counter t) (preload t) (continuous t)
                        (period t) TIM_OCM_PWM1 TIM_OCM_PWM1 (oc3_value t) (oc4_value t)
                        (oc3_output t) (oc4_output t) (counter_enabled t) in
  let t := timer_set_oc3_value t 0 in
  let t := timer_set_oc4_value t 0 in
  mk_pwm_timer (clock_division t) (alignment t) (direction t)
               (prescaler t) (repetition_counter t) (preload t) (continuous t) (period t)
               (oc3_mode t) (oc4_mode t) (oc3_value t) (oc4_value t) true true true.

Definition power_left (t : pwm_timer) (power : Z) : pwm_timer := timer_set_oc3_value t power.
Definition power_right (t : pwm_timer) (power : Z) : pwm_timer := timer_set_oc4_value t power.

(** PWM1 as the comment of [setup_pwm] has it: the output is active when
    the counter is less than the compare register and inactive
    otherwise. *)
Definition pwm1_active (enabled : bool) (mode : oc_mode) (value cnt : Z) : bool :=
  enabled &&
  match mode with
  | TIM_OCM_PWM1 => cnt <? value
  | _ => false
  end.

Definition left_active (t : pwm_timer) (cnt : Z) : bool :=
  counter_enabled t && pwm1_active (oc3_output t) (oc3_mode t) (oc3_value t) cnt.

Definition right_active (t : pwm_timer) (cnt : Z) : bool :=
  counter_enabled t && pwm1_active (oc4_output t) (oc4_mode t) (oc4_value t) cnt.

(** The counter values of one period of the up-counting timer: 0 to the
    period value. *)
Definition counter_values (t : pwm_timer) : list Z :=
  map Z.of_nat (seq 0 (Z.to_nat (period t + 1))).

Definition active_ticks (active : Z -> bool) (t : pwm_timer) : Z :=
  Z.of_nat (length (filter active (counter_values t))).

(** What [_write] acts on: the words sent over USART3 and [errno]. *)
Record console : Type := mk_console {
  usart3_sent : list Z;
  errno : Z
}.

Definition EIO : Z := 5.

(** [usart_send_blocking]: the data register takes 9 bits. *)
Definition usart_send_blocking (c : console) (data : Z) : console :=
  mk_console (usart3_sent c ++ [Z.land data 511]) (errno c).

(** [_write(file, ptr, len)]: the buffer is the list of its characters.
    The result is the returned value and the console. *)
Definition _write (file : Z) (ptr : list Z) (len : Z) (c : console) : Z * console :=
  if file =? 1
  then (Z.of_nat (Z.to_nat len),
        fold_left (fun c i => usart_send_blocking c (nth i ptr 0)) (seq 0 (Z.to_nat len)) c)
  else (-1, mk_console (usart3_sent c) EIO).

(** The two encoder timers, TIM1 on the left motor and TIM4 on the
    right one. *)
Record encoders : Type := mk_encoders {
  TIM1 : Encoder.timer;
  TIM4 : Encoder.timer
}.

Definition setup_encoders (e : encoders) : encoders :=
  mk_encoders (Encoder.configure_timer_as_quadrature_encoder (TIM1 e))
              (Encoder.configure_timer_as_quadrature_encoder (TIM4 e)).

Definition read_encoder_left (e : encoders) : Z := Encoder.TIM_CNT (TIM1 e).
Definition read_encoder_right (e : encoders) : Z := Encoder.TIM_CNT (TIM4 e).

(** The two wheels turning: the left one traverses [left] and the right
    one [right]. *)
Definition turn_wheels (left right : list Encoder.edge) (e : encoders) : encoders :=
  mk_encoders (Encoder.count_edges left (TIM1 e)) (Encoder.count_edges right (TIM4 e)).

End Board.

(** ** calibration.c: the throughput probe *)

Module Profiling.

Definition wrap32 (z : Z) : Z := z mod 2 ^ 32.

(** The tick counter as it would run without wrapping, the number of
    transforms made so far and the values logged. *)
Record bench : Type := mk_bench {
  ticks : Z;
  transforms : nat;
  logged : list Z
}.

Section Probe.

(** The ticks that pass during the call number [k] of
    [update_distance_readings]. *)
Variable cost : nat -> Z.

(** Modelled from the spec: [update_distance_readings], which performs
    one sensor-to-distance transform; here it takes its time. *)
Definition update_distance_readings (b : bench) : bench :=
  mk_bench (ticks b + cost (transforms b)) (S (transforms b)) (logged b).

(** Modelled from the spec: [get_clock_ticks], the tick count, an
    unsigned 32-bit value. *)
Definition get_clock_ticks (b : bench) : Z := wrap32 (ticks b).

(** [LOG_INFO("Clock ticks ...", value)]. *)
Definition LOG_INFO (value : Z) (b : bench) : bench :=
  mk_bench (ticks b) (transforms b) (logged b ++ [value]).

Definition run_distances_profiling (b : bench) : bench :=
  let clock_tick_start := get_clock_ticks b in
  let b := Nat.iter 1000 update_distance_readings b in
  let clock_tick_end := get_clock_ticks b in
  LOG_INFO (wrap32 (clock_tick_end - clock_tick_start)) b.

(** The ticks taken by [n] transforms from number [k] on. *)
Definition total_cost (k n : nat) : Z := fold_right Z.add 0 (map cost (seq k n)).

End Probe.

End Profiling.

(** ** calibration.c: the procedures together *)

Module Procedures.

Import Calibration.

(** The procedures that command target speeds themselves. *)
Definition profile_procedures (encoder_average_micrometers : nat -> Z)
           (required_micrometers : status -> float -> float)
           (PI CELL_DIMENSION MICROMETERS_PER_METER : float) (fuel : nat) : list (M unit) :=
  [run_linear_speed_profile encoder_average_micrometers fuel;
   run_angular_speed_profile PI;
   run_static_turn_right_profile PI;
   run_front_sensors_calibration encoder_average_micrometers required_micrometers
     CELL_DIMENSION MICROMETERS_PER_METER fuel].

(** The calls of the linear speed profile up to the command of the
    maximum speed, and those of the front-sensor calibration up to the
    command of its approach speed. *)
Definition linear_profile_start (s0 : status) : list entry :=
  [(s0, DisableWallsControl);
   (with_ctl (fun c => mk_controls false false (motor c)) s0, EnableMotorControl)]
  ++ log_entries LinearSpeed 10 100 (under_control s0)
  ++ [(elapsed 1000 (under_control s0), SetTargetAngularSpeed 0%Q);
      (commanding (target_linear_speed (tgt s0)) 0%Q (elapsed 1000 (under_control s0)),
       SetTargetLinearSpeed (max_linear_speed (cfg s0)))].

Definition front_calibration_start (s0 : status) : list entry :=
  let s1 := with_clk polled (with_acceleration 4%Q (under_control s0)) in
  [(s0, DisableWallsControl);
   (with_ctl (fun c => mk_controls false false (motor c)) s0, EnableMotorControl);
   (under_control s0, SetLinearAcceleration 4%Q);
   (s1, SetTargetAngularSpeed 0%Q);
   (commanding (target_linear_speed (tgt s0)) 0%Q s1, SetTargetLinearSpeed approach_speed)].

(** A procedure that, whenever it returns, has made [reset_motion] its
    last call, with both target speeds at zero. *)
Definition stops_and_resets (c : M unit) : Prop :=
  forall w w', c w = Done tt w' ->
  exists tr s,
    trace w' = tr ++ [(s, ResetMotion)] /\
    target_linear_speed (tgt s) = 0%Q /\
    target_angular_speed (tgt s) = 0%Q.

End Procedures.

(** The values of a [uint16_t]. *)
Definition in_uint16 (v : Z) : Prop := 0 <= v < 65536.

(** * Properties *)

(** ** Fixed-width integers *)

Lemma wrap_s32_small z : in_int32 z -> wrap_s32 z = z.
Proof.
  unfold in_int32, wrap_s32. intros H.
  rewrite Z.mod_small by lia. lia.
Qed.

(** ** The sensor pipeline *)

Section SensorFrames.

Import Detection Setup.

Lemma sweep_frame_sequence analog a1 a2 :
  injected_sequence a1 = injected_sequence a2 ->
  sweep_frame analog a1 = sweep_frame analog a2.
Proof.
  intros H. unfold sweep_frame, complete_sweep. simpl.
  rewrite H. reflexivity.
Qed.

(** One handler invocation after a completed sweep leaves in the four
    globals the four conversion results of that sweep. *)
Lemma isr_publishes_sweep analog m :
  frame_of (adc1_2_isr (mk_machine (complete_sweep analog (adc1 m)) (globals m)))
  = sweep_frame analog (adc1 m).
Proof. reflexivity. Qed.

(** Handler invocations alone leave what the reader has seen untouched
    and leave in the globals either their previous content or the frame
    of one of the sweeps. *)
Lemma run_sweeps_only pre :
  forall m seen,
    loads_of pre = [] ->
    exists m',
      fold_left step pre (m, seen) = (m', seen) /\
      injected_sequence (adc1 m') = injected_sequence (adc1 m) /\
      (frame_of m' = frame_of m \/
       exists analog, In analog (sweeps_of pre) /\ frame_of m' = sweep_frame analog (adc1 m)).
Proof.
  induction pre as [|e pre IH]; intros m seen Hl.
  - exists m. simpl. auto.
  - destruct e as [analog|id]; simpl in Hl; [|discriminate].
    simpl fold_left.
    set (m1 := adc1_2_isr (mk_machine (complete_sweep analog (adc1 m)) (globals m))).
    destruct (IH m1 seen Hl) as (m' & Hrun & Hseq & Hfr).
    assert (Hs1 : injected_sequence (adc1 m1) = injected_sequence (adc1 m)) by reflexivity.
    exists m'. split; [exact Hrun|]. split; [congruence|].
    right. destruct Hfr as [Hfr | (f & Hin & Hfr)].
    + exists analog. split; [simpl; auto|].
      rewrite Hfr. apply isr_publishes_sweep.
    + exists f. split; [simpl; auto|].
      rewrite Hfr. apply sweep_frame_sequence. exact Hs1.
Qed.

Lemma sweeps_of_app l1 l2 : sweeps_of (l1 ++ l2) = sweeps_of l1 ++ sweeps_of l2.
Proof. unfold sweeps_of. apply flat_map_app. Qed.

Lemma run_keeps_sequence evs :
  forall st,
    injected_sequence (adc1 (fst (fold_left step evs st)))
    = injected_sequence (adc1 (fst st)).
Proof.
  induction evs as [|e evs IH]; intros [m seen]; [reflexivity|].
  simpl fold_left. destruct e as [analog|id]; rewrite IH; reflexivity.
Qed.

(** C8. Every invocation of the completion handler stores the injected
    conversion of rank [k] in the global [sensor_k], cut to its 16 bits,
    and after [setup_adc] the ranks 1 to 4 convert the analog channels 3,
    4, 5 and 6. Read by logical sensor, rank 1 is stored as side-left,
    rank 2 as side-right, rank 3 as front-left and rank 4 as front-right,
    so that after every sweep, whatever happened before it, side-left,
    side-right, front-left and front-right hold the samples of the
    channels 3, 4, 5 and 6. *)
Theorem isr_rank_to_sensor_mapping :
  forall (m : machine),
    (forall k, 1 <= k <= 4 ->
       sensor_global (globals (adc1_2_isr m)) k = wrap16 (adc_read_injected (adc1 m) k)) /\
    injected_sequence (setup_adc (adc1 m)) = [3; 4; 5; 6] /\
    (sensor_reading (globals (adc1_2_isr m)) SENSOR_SIDE_LEFT
       = wrap16 (adc_read_injected (adc1 m) 1) /\
     sensor_reading (globals (adc1_2_isr m)) SENSOR_SIDE_RIGHT
       = wrap16 (adc_read_injected (adc1 m) 2) /\
     sensor_reading (globals (adc1_2_isr m)) SENSOR_FRONT_LEFT
       = wrap16 (adc_read_injected (adc1 m) 3) /\
     sensor_reading (globals (adc1_2_isr m)) SENSOR_FRONT_RIGHT
       = wrap16 (adc_read_injected (adc1 m) 4)) /\
    forall (evs : list event) (analog : Z -> Z),
      let m' := fst (run (evs ++ [Sweep analog])
                         (mk_machine (setup_adc (adc1 m)) (globals m))) in
      sensor_reading (globals m') SENSOR_SIDE_LEFT = wrap16 (analog 3) /\
      sensor_reading (globals m') SENSOR_SIDE_RIGHT = wrap16 (analog 4) /\
      sensor_reading (globals m') SENSOR_FRONT_LEFT = wrap16 (analog 5) /\
      sensor_reading (globals m') SENSOR_FRONT_RIGHT = wrap16 (analog 6).
Proof.
  intros m. split.
  { intros k Hk.
    assert (E : k = 1 \/ k = 2 \/ k = 3 \/ k = 4) by lia.
    destruct E as [-> | [-> | [-> | ->]]]; reflexivity. }
  split; [reflexivity|]. split; [repeat split|].
  intros evs analog m'.
  pose proof (run_keeps_sequence evs (mk_machine (setup_adc (adc1 m)) (globals m), []))
    as Hseq.
  unfold m', run. rewrite fold_left_app.
  destruct (fold_left step evs (mk_machine (setup_adc (adc1 m)) (globals m), []))
    as [m1 seen].
  simpl in Hseq. simpl. unfold complete_sweep. rewrite Hseq. simpl.
  repeat split.
Qed.

(** C1, as the code has it. Every invocation of the handler after a
    completed sweep writes all four globals from the four conversion
    results of that sweep, and a foreground read whose four loads are
    not separated by a handler invocation observes a whole frame: the
    content of the globals when the loads start, which is the start-up
    content or the four conversion results of one completed sweep. The
    globals carry no sequence number. *)
Theorem unpreempted_read_is_whole :
  forall (m : machine) (pre post : list event),
    loads_of pre = [] ->
    loads_of post = [] ->
    let evs := pre ++ [Load 1; Load 2; Load 3; Load 4] ++ post in
    (forall analog,
       frame_of (adc1_2_isr (mk_machine (complete_sweep analog (adc1 m)) (globals m)))
       = sweep_frame analog (adc1 m)) /\
    observed evs m = frame_of (fst (run pre m)) /\
    whole_frame evs m (observed evs m).
Proof.
  intros m pre post Hpre Hpost evs.
  destruct (run_sweeps_only pre m [] Hpre) as (m1 & Hrun & Hseq & Hfr).
  assert (Hobs : observed evs m = frame_of m1).
  { unfold observed, run, evs. rewrite fold_left_app, Hrun.
    rewrite fold_left_app. simpl fold_left at 2.
    destruct (run_sweeps_only post m1 (frame_of m1) Hpost) as (m2 & Hrun2 & _).
    unfold frame_of in *. simpl in *. rewrite Hrun2. reflexivity. }
  split; [intros analog; apply isr_publishes_sweep|]. split.
  - rewrite Hobs. unfold run. rewrite Hrun. reflexivity.
  - rewrite Hobs. destruct Hfr as [Hfr | (f & Hin & Hfr)].
    + left. exact Hfr.
    + right. exists f. split; [|exact Hfr].
      unfold evs. rewrite sweeps_of_app. apply in_or_app. left. exact Hin.
Qed.

Lemma unpreempted_read_is_whole_witness :
  observed ([Sweep (fun ch => ch)] ++ [Load 1; Load 2; Load 3; Load 4] ++ [Sweep (fun ch => 7)])
           idle_machine = [3; 4; 5; 6].
Proof.
  refine (eq_trans
    (proj1 (proj2 (unpreempted_read_is_whole idle_machine [Sweep (fun ch => ch)]
                     [Sweep (fun ch => 7)] eq_refl eq_refl))) _).
  reflexivity.
Defined.

(** A sweep completing between the first and the second load tears the
    read: the reader sees [sensor_1] of one sweep with the other three
    globals of the next, a frame that is neither the start-up content
    nor the conversion results of either sweep. *)
Lemma torn_read :
  observed [Sweep (fun _ => 1); Load 1; Sweep (fun _ => 2); Load 2; Load 3; Load 4]
           idle_machine = [1; 2; 2; 2] /\
  ~ torn_free.
Proof.
  split; [reflexivity|].
  intros H.
  specialize (H idle_machine
                [Sweep (fun _ => 1); Load 1; Sweep (fun _ => 2); Load 2; Load 3; Load 4]
                eq_refl).
  destruct H as [H | (f & Hin & H)].
  - vm_compute in H. discriminate.
  - simpl in Hin. destruct Hin as [<- | [<- | []]]; vm_compute in H; discriminate.
Qed.

End SensorFrames.

(** ** The encoder counters *)

Section EncoderCounters.

Import Encoder.

Lemma configure_ready t0 :
  0 <= TIM_CNT t0 <= 65535 ->
  encoder_ready (configure_timer_as_quadrature_encoder t0).
Proof. intros H. repeat split; simpl; lia. Qed.

Lemma count_edge_ready t e :
  encoder_ready t ->
  encoder_ready (count_edge t e) /\
  TIM_CNT (count_edge t e) = (TIM_CNT t + net_edges [e]) mod 65536.
Proof.
  intros (Hc & Ha & Hr). unfold count_edge. rewrite Hc.
  unfold encoder_ready, counting in *. simpl. rewrite Hc, Ha.
  unfold next_count. rewrite Ha.
  destruct e; simpl.
  - destruct (Z.eqb_spec (TIM_CNT t) 65535) as [E|E].
    + rewrite E. repeat split; try lia.
    + rewrite Z.mod_small by lia. repeat split; lia.
  - destruct (Z.eqb_spec (TIM_CNT t) 0) as [E|E].
    + rewrite E. repeat split; try lia.
    + rewrite Z.mod_small by lia. repeat split; lia.
Qed.

(** The raw counter is the true position modulo 2^16. *)
Lemma count_edges_mod es :
  forall t,
    encoder_ready t ->
    encoder_ready (count_edges es t) /\
    read_encoder (count_edges es t) = (TIM_CNT t + net_edges es) mod 65536.
Proof.
  induction es as [|e es IH]; intros t Hr.
  - simpl. split; [exact Hr|]. destruct Hr as (_ & _ & Hr).
    rewrite Z.add_0_r, Z.mod_small by lia. reflexivity.
  - destruct (count_edge_ready t e Hr) as (Hr1 & Hc1).
    destruct (IH _ Hr1) as (Hr2 & Hc2).
    unfold count_edges in *. simpl fold_left.
    split; [exact Hr2|]. rewrite Hc2, Hc1.
    rewrite Zplus_mod_idemp_l. f_equal.
    destruct e; cbn [net_edges]; lia.
Qed.

Lemma counter_delta_mod c n :
  counter_delta c ((c + n) mod 65536) = n mod 65536.
Proof.
  unfold counter_delta. change (2 ^ 16) with 65536.
  rewrite Zminus_mod_idemp_l. f_equal. lia.
Qed.

(** Read as a signed 16-bit count, the delta of two raw readings is the
    true count of edges whenever that count fits in 16 signed bits. *)
Lemma poll_delta_exact c n :
  - 32768 <= n < 32768 ->
  poll_delta c ((c + n) mod 65536) = n.
Proof.
  intros Hn. unfold poll_delta. rewrite counter_delta_mod.
  unfold direction_adjusted. change (2 ^ 15) with 32768. change (2 ^ 16) with 65536.
  destruct (Z_lt_le_dec n 0) as [Hneg | Hpos].
  - replace (n mod 65536) with (n + 65536).
    + destruct (Z.ltb_spec (n + 65536) 32768); lia.
    + apply Z.mod_unique with (q := -1); lia.
  - rewrite Z.mod_small by lia.
    destruct (Z.ltb_spec n 32768); lia.
Qed.

Lemma drive_exact k runs :
  forall t w,
    encoder_ready t ->
    last_raw w = read_encoder t ->
    Forall (fun es => - 32768 <= net_edges es < 32768) runs ->
    let '(t', w', ds) := drive k runs t w in
    ds = map net_edges runs /\
    (distance w' == distance w + k * inject_Z (total_edges runs))%Q /\
    last_raw w' = read_encoder t'.
Proof.
  induction runs as [|es runs IH]; intros t w Hr Hl Hf.
  - simpl. repeat split; auto. unfold total_edges. simpl. ring.
  - inversion Hf as [|? ? Hes Hf']; subst.
    destruct (count_edges_mod es t Hr) as (Hr1 & Hc1).
    simpl drive.
    specialize (IH (count_edges es t)
                   (poll_wheel k (read_encoder (count_edges es t)) w) Hr1 eq_refl Hf').
    destruct (drive k runs (count_edges es t)
                    (poll_wheel k (read_encoder (count_edges es t)) w))
      as [[t' w'] ds].
    destruct IH as (Hds & Hdist & Hlast).
    assert (Hd : poll_delta (last_raw w) (read_encoder (count_edges es t)) = net_edges es).
    { rewrite Hl, Hc1. unfold read_encoder. apply poll_delta_exact. exact Hes. }
    repeat split.
    + simpl. rewrite Hd, Hds. reflexivity.
    + rewrite Hdist. simpl distance. rewrite Hd.
      unfold total_edges. simpl. rewrite inject_Z_plus. ring.
    + exact Hlast.
Qed.

(** C2, as the tracker can guarantee it. The quadrature timers are set
    up with period 0xFFFF, so a raw reading is the true position modulo
    2^16. When the net count of edges traversed between two consecutive
    polls, forward edges counted positive, is at least -2^15 and less
    than 2^15, each per-poll delta [(r1 - r0) mod 2^16], direction-adjusted,
    is the true count of edges traversed, forward or backward, and after
    any number of polls the accumulated distance is the
    micrometers-per-count constant times the sum of these counts, however
    many times the counter wrapped over the whole run. *)
Theorem wrap_aware_distance :
  forall (micrometers_per_count : Q) (t0 : timer) (runs : list (list edge)),
    0 <= TIM_CNT t0 <= 65535 ->
    Forall (fun es => - 32768 <= net_edges es < 32768) runs ->
    let t := configure_timer_as_quadrature_encoder t0 in
    TIM_ARR t = 65535 /\
    (forall es, read_encoder (count_edges es t) = (read_encoder t + net_edges es) mod 2 ^ 16) /\
    let '(t', w', deltas) := drive micrometers_per_count runs t (reset_wheel (read_encoder t)) in
    deltas = map net_edges runs /\
    (distance w' == micrometers_per_count * inject_Z (total_edges runs))%Q.
Proof.
  intros k t0 runs Hc Hf t.
  pose proof (configure_ready t0 Hc) as Hr. fold t in Hr.
  split; [reflexivity|]. split.
  - intros es. apply (count_edges_mod es t Hr).
  - pose proof (drive_exact k runs t (reset_wheel (read_encoder t)) Hr eq_refl Hf) as H.
    destruct (drive k runs t (reset_wheel (read_encoder t))) as [[t' w'] ds].
    destruct H as (Hds & Hdist & _). split; [exact Hds|].
    rewrite Hdist. simpl. ring.
Qed.

End EncoderCounters.

Lemma wrap_aware_distance_witness :
  let t := Encoder.configure_timer_as_quadrature_encoder
             (Encoder.mk_timer 0 0 0 0 false 65534) in
  let runs := [[Encoder.Forward; Encoder.Forward; Encoder.Forward];
               [Encoder.Backward; Encoder.Backward; Encoder.Backward; Encoder.Backward]] in
  let '(t', w', deltas) :=
    Encoder.drive (9 # 1) runs t (Encoder.reset_wheel (Encoder.read_encoder t)) in
  deltas = [3; -4] /\ (Encoder.distance w' == - 9)%Q /\ Encoder.read_encoder t' = 65533.
Proof.
  pose proof (wrap_aware_distance (9 # 1) (Encoder.mk_timer 0 0 0 0 false 65534)
                [[Encoder.Forward; Encoder.Forward; Encoder.Forward];
                 [Encoder.Backward; Encoder.Backward; Encoder.Backward; Encoder.Backward]])
    as H.
  simpl in H.
  assert (H1 : 0 <= 65534 <= 65535) by lia.
  assert (H2 : Forall (fun es => - 32768 <= Encoder.net_edges es < 32768)
                 [[Encoder.Forward; Encoder.Forward; Encoder.Forward];
                  [Encoder.Backward; Encoder.Backward; Encoder.Backward; Encoder.Backward]]).
  { repeat constructor; simpl; lia. }
  destruct (H H1 H2) as (_ & _ & Hd & Hq).
  simpl. split; [exact Hd|]. split; reflexivity.
Defined.

(** One wrap is not enough. A wheel that traverses exactly 2^16 edges
    forward wraps its counter once and leaves the raw reading where it
    was, so the direction-adjusted delta is 0; and a wheel that traverses
    2^15 edges forward from a counter at 0 does not wrap the counter at
    all, yet its delta reads as 2^15 edges backward. *)
Lemma full_turn_of_counter_is_lost :
  let t := Encoder.configure_timer_as_quadrature_encoder
             (Encoder.mk_timer 0 0 0 0 false 10) in
  let es := repeat Encoder.Forward (Z.to_nat 65536) in
  let t0 := Encoder.configure_timer_as_quadrature_encoder
              (Encoder.mk_timer 0 0 0 0 false 0) in
  let half := repeat Encoder.Forward (Z.to_nat 32768) in
  Encoder.wraps es t = 1 /\
  Encoder.net_edges es = 65536 /\
  Encoder.poll_delta (Encoder.read_encoder t)
                     (Encoder.read_encoder (Encoder.count_edges es t)) = 0 /\
  Encoder.wraps half t0 = 0 /\
  Encoder.net_edges half = 32768 /\
  Encoder.poll_delta (Encoder.read_encoder t0)
                     (Encoder.read_encoder (Encoder.count_edges half t0)) = - 32768 /\
  ~ Encoder.one_wrap_delta_exact.
Proof.
  assert (Hw : Encoder.wraps (repeat Encoder.Forward (Z.to_nat 65536))
                 (Encoder.configure_timer_as_quadrature_encoder
                    (Encoder.mk_timer 0 0 0 0 false 10)) = 1)
    by (vm_compute; reflexivity).
  assert (Hn : Encoder.net_edges (repeat Encoder.Forward (Z.to_nat 65536)) = 65536)
    by (vm_compute; reflexivity).
  assert (Hd : Encoder.poll_delta
                 (Encoder.read_encoder
                    (Encoder.configure_timer_as_quadrature_encoder
                       (Encoder.mk_timer 0 0 0 0 false 10)))
                 (Encoder.read_encoder
                    (Encoder.count_edges (repeat Encoder.Forward (Z.to_nat 65536))
                       (Encoder.configure_timer_as_quadrature_encoder
                          (Encoder.mk_timer 0 0 0 0 false 10)))) = 0)
    by (vm_compute; reflexivity).
  cbv zeta. split; [exact Hw|]. split; [exact Hn|]. split; [exact Hd|].
  split; [vm_compute; reflexivity|]. split; [vm_compute; reflexivity|].
  split; [vm_compute; reflexivity|].
  intros H.
  specialize (H (Encoder.mk_timer 0 0 0 0 false 10)
                (repeat Encoder.Forward (Z.to_nat 65536))).
  cbv zeta in H.
  assert (Hr : 0 <= Encoder.TIM_CNT (Encoder.mk_timer 0 0 0 0 false 10) <= 65535)
    by (simpl; lia).
  specialize (H Hr).
  rewrite Hw in H. specialize (H (Z.le_refl 1)).
  rewrite Hd, Hn in H. discriminate.
Qed.

(** ** Binary floating point *)

Section FloatRounding.

Import Floats.

Lemma round_half_even_near (x : Q) :
  (x - (1 # 2) <= inject_Z (round_half_even x) <= x + (1 # 2))%Q.
Proof.
  unfold round_half_even.
  pose proof (Qfloor_le x) as Hlo.
  pose proof (Qlt_floor x) as Hhi.
  rewrite inject_Z_plus in Hhi. change (inject_Z 1) with 1%Q in Hhi.
  destruct (Qcompare_spec (x - inject_Z (Qfloor x)) (1 # 2)) as [E | E | E].
  - destruct (Z.even (Qfloor x)); rewrite ?inject_Z_plus;
      change (inject_Z 1) with 1%Q; lra.
  - lra.
  - rewrite inject_Z_plus. change (inject_Z 1) with 1%Q. lra.
Qed.

Lemma pow2_pos (e : Z) : (0 < pow2 e)%Q.
Proof. apply Qpower_0_lt. reflexivity. Qed.

Lemma pow2_plus (a b : Z) : (pow2 (a + b) == pow2 a * pow2 b)%Q.
Proof. apply Qpower_plus. discriminate. Qed.

Lemma binade_below (x : Q) : (0 < x)%Q -> (pow2 (binade x) <= x)%Q.
Proof.
  intros Hx. unfold binade.
  destruct (Qle_bool _ x) eqn:E.
  - now apply Qle_bool_iff.
  - clear E. destruct x as [n d]. unfold Qlt in Hx. simpl in Hx.
    assert (Hn : 0 < n) by lia. simpl Qnum. simpl Qden.
    pose proof (Z.log2_spec n Hn) as [Hln _].
    pose proof (Z.log2_spec (Zpos d) eq_refl) as [_ Hld].
    pose proof (Z.log2_nonneg n) as Hn0.
    pose proof (Z.log2_nonneg (Zpos d)) as Hd0.
    replace (Z.log2 n - Z.log2 (Z.pos d) - 1)
      with (Z.log2 n - Z.succ (Z.log2 (Zpos d))) by lia.
    unfold pow2. rewrite Qpower_minus by discriminate.
    rewrite <- !(Zpower_Qpower 2) by lia.
    apply Qle_shift_div_r.
    + unfold Qlt. cbn [Qnum Qden inject_Z]. lia.
    + unfold Qle, Qmult. cbn [Qnum Qden inject_Z]. nia.
Qed.

(** Rounding a positive value to [p] significant bits moves it by at most
    the fraction [2 ^ (- p)] of itself. *)
Lemma round_positive_near (p : Z) (x : Q) :
  (0 < x)%Q ->
  (x - x * pow2 (- p) <= round_positive p x <= x + x * pow2 (- p))%Q.
Proof.
  intros Hx. unfold round_positive. rewrite Qred_correct.
  set (u := pow2 (binade x - (p - 1))).
  assert (Hu : (0 < u)%Q) by apply pow2_pos.
  pose proof (round_half_even_near (x / u)) as [Hlo Hhi].
  set (m := inject_Z (round_half_even (x / u))) in *.
  assert (Hxu : (x / u * u == x)%Q) by (field; lra).
  assert (Hhalf : (u * (1 # 2) <= x * pow2 (- p))%Q).
  { unfold u.
    replace (binade x - (p - 1)) with (binade x + (1 + - p)) by lia.
    rewrite !pow2_plus.
    change (pow2 1) with 2%Q.
    setoid_replace (pow2 (binade x) * (2 * pow2 (- p)) * (1 # 2))%Q
      with (pow2 (binade x) * pow2 (- p))%Q by ring.
    apply Qmult_le_compat_r.
    - now apply binade_below.
    - apply Qlt_le_weak, pow2_pos. }
  assert (H1 : ((x / u - (1 # 2)) * u <= m * u)%Q)
    by (apply Qmult_le_compat_r; lra).
  assert (H2 : (m * u <= (x / u + (1 # 2)) * u)%Q)
    by (apply Qmult_le_compat_r; lra).
  setoid_replace ((x / u - (1 # 2)) * u)%Q with (x / u * u - u * (1 # 2))%Q in H1 by ring.
  setoid_replace ((x / u + (1 # 2)) * u)%Q with (x / u * u + u * (1 # 2))%Q in H2 by ring.
  rewrite Hxu in H1, H2. lra.
Qed.

Lemma round_to_positive (p : Z) (x : Q) :
  (0 < x)%Q -> round_to p x = round_positive p x.
Proof.
  intros Hx. unfold round_to. destruct (Qcompare_spec x 0); try lra. reflexivity.
Qed.

Lemma round_to_negative (p : Z) (x : Q) :
  (x < 0)%Q -> round_to p x = (- round_positive p (- x))%Q.
Proof.
  intros Hx. unfold round_to. destruct (Qcompare_spec x 0); try lra. reflexivity.
Qed.

Lemma round_to_zero (p : Z) (x : Q) : (x == 0)%Q -> round_to p x = 0%Q.
Proof.
  intros Hx. unfold round_to. destruct (Qcompare_spec x 0); try lra. reflexivity.
Qed.

Lemma double_precision : (pow2 (- 53) <= rounding_error)%Q.
Proof. vm_compute. discriminate. Qed.

Lemma float_precision : (pow2 (- 24) <= rounding_error)%Q.
Proof. vm_compute. discriminate. Qed.

Lemma round_near_pos (p : Z) (x : Q) :
  (pow2 (- p) <= rounding_error)%Q -> (0 < x)%Q ->
  (x * (1 - rounding_error) <= round_to p x <= x * (1 + rounding_error))%Q.
Proof.
  intros Hp Hx. rewrite round_to_positive by assumption.
  pose proof (round_positive_near p x Hx) as [Hlo Hhi].
  assert (H : (x * pow2 (- p) <= x * rounding_error)%Q).
  { rewrite !(Qmult_comm x). apply Qmult_le_compat_r; lra. }
  split; lra.
Qed.

Lemma round_near_neg (p : Z) (x : Q) :
  (pow2 (- p) <= rounding_error)%Q -> (x < 0)%Q ->
  (x * (1 + rounding_error) <= round_to p x <= x * (1 - rounding_error))%Q.
Proof.
  intros Hp Hx. rewrite round_to_negative by assumption.
  assert (Hx' : (0 < - x)%Q) by lra.
  pose proof (round_positive_near p (- x) Hx') as [Hlo Hhi].
  assert (H : ((- x) * pow2 (- p) <= (- x) * rounding_error)%Q).
  { rewrite !(Qmult_comm (- x)). apply Qmult_le_compat_r; lra. }
  split; lra.
Qed.



Lemma round_nonneg (p : Z) (x : Q) :
  (pow2 (- p) <= rounding_error)%Q -> (0 <= x)%Q -> (0 <= round_to p x)%Q.
Proof.
  intros Hp Hx. destruct (Qlt_le_dec 0 x) as [H | H].
  - pose proof (round_near_pos p x Hp H) as [H1 _]. clear Hp.
    unfold rounding_error in *. lra.
  - rewrite round_to_zero by lra. lra.
Qed.

Lemma round_nonpos (p : Z) (x : Q) :
  (pow2 (- p) <= rounding_error)%Q -> (x <= 0)%Q -> (round_to p x <= 0)%Q.
Proof.
  intros Hp Hx. destruct (Qlt_le_dec x 0) as [H | H].
  - pose proof (round_near_neg p x Hp H) as [_ H1]. clear Hp.
    unfold rounding_error in *. lra.
  - rewrite round_to_zero by lra. lra.
Qed.

Lemma to_double_nonneg (x : Q) : (0 <= x)%Q -> (0 <= to_double x)%Q.
Proof. apply round_nonneg, double_precision. Qed.

Lemma to_double_nonpos (x : Q) : (x <= 0)%Q -> (to_double x <= 0)%Q.
Proof. apply round_nonpos, double_precision. Qed.

Lemma to_float_nonneg (x : Q) : (0 <= x)%Q -> (0 <= to_float x)%Q.
Proof. apply round_nonneg, float_precision. Qed.

Lemma to_float_nonpos (x : Q) : (x <= 0)%Q -> (to_float x <= 0)%Q.
Proof. apply round_nonpos, float_precision. Qed.

Lemma Qdiv_same_sign (b t : Q) :
  ((0 <= b /\ 0 <= t) \/ (b <= 0 /\ t <= 0))%Q -> (0 <= b / t)%Q.
Proof.
  intros [[Hb Ht] | [Hb Ht]].
  - apply Qmult_le_0_compat; [assumption | now apply Qinv_le_0_compat].
  - destruct (Qeq_dec t 0) as [E | E].
    + unfold Qdiv. rewrite E. change (/ 0)%Q with 0%Q. lra.
    + setoid_replace (b / t)%Q with ((- b) * / (- t))%Q by (field; assumption).
      apply Qmult_le_0_compat; [lra | apply Qinv_le_0_compat; lra].
Qed.




Lemma float_to_int_nonneg (x : Q) : (0 <= x)%Q -> 0 <= Calibration.float_to_int x.
Proof.
  destruct x as [n d]. unfold Qle, Calibration.float_to_int. cbn [Qnum Qden].
  intros H. apply Z.quot_pos; lia.
Qed.




Lemma turn_speed_sign (PI : Q) :
  ((0 <= to_double PI /\ 0 <= Calibration.turn_speed PI)
   \/ (to_double PI <= 0 /\ Calibration.turn_speed PI <= 0))%Q.
Proof.
  unfold Calibration.turn_speed.
  destruct (Qlt_le_dec PI 0) as [H | H]; [right | left].
  - assert (HP : (to_double PI <= 0)%Q) by (apply to_double_nonpos; lra).
    split; [exact HP|]. apply to_float_nonpos, to_double_nonpos. lra.
  - assert (HP : (0 <= to_double PI)%Q) by (apply to_double_nonneg; lra).
    split; [exact HP|]. apply to_float_nonneg, to_double_nonneg. lra.
Qed.

(** Whatever [PI] is, no hold is negative. *)
Lemma angular_hold_nonneg (PI : Q) : 0 <= Calibration.angular_hold PI.
Proof.
  unfold Calibration.angular_hold.
  apply float_to_int_nonneg, to_double_nonneg, Qdiv_same_sign.
  destruct (turn_speed_sign PI) as [[HP Ht] | [HP Ht]]; [left | right];
    (split; [| exact Ht]).
  - apply to_double_nonneg.
    assert (0 <= to_double (3 * to_double PI))%Q by (apply to_double_nonneg; lra).
    lra.
  - apply to_double_nonpos.
    assert (to_double (3 * to_double PI) <= 0)%Q by (apply to_double_nonpos; lra).
    lra.
Qed.

Lemma static_turn_hold_nonneg (PI : Q) : 0 <= Calibration.static_turn_hold PI.
Proof.
  unfold Calibration.static_turn_hold.
  apply float_to_int_nonneg, to_double_nonneg, Qdiv_same_sign.
  assert (Hh : (to_double PI / 2 == to_double PI * (1 # 2))%Q) by field.
  destruct (turn_speed_sign PI) as [[HP Ht] | [HP Ht]]; [left | right];
    (split; [| exact Ht]).
  - apply to_double_nonneg.
    assert (0 <= to_double (to_double PI / 2))%Q by (apply to_double_nonneg; lra).
    lra.
  - apply to_double_nonpos.
    assert (to_double (to_double PI / 2) <= 0)%Q by (apply to_double_nonpos; lra).
    lra.
Qed.

End FloatRounding.

(** ** The calibration sequencer *)

Section CalibrationRuns.

Import Floats Calibration.

Lemma bind_done {A B : Type} (c : M A) (k : A -> M B) w a w1 :
  c w = Done a w1 -> bind c k w = k a w1.
Proof. intros H. unfold bind. rewrite H. reflexivity. Qed.

Lemma elapsed_0 s : elapsed 0 s = s.
Proof.
  destruct s as [[t p] c g f]. unfold elapsed, with_clk, advance. simpl.
  rewrite Z.add_0_r. reflexivity.
Qed.

Lemma elapsed_elapsed a b s : elapsed a (elapsed b s) = elapsed (b + a) s.
Proof.
  destruct s as [[t p] c g f]. unfold elapsed, with_clk, advance. simpl.
  rewrite Z.add_assoc. reflexivity.
Qed.

Lemma shift_shift a p b q s : shift a p (shift b q s) = shift (b + a) (q + p) s.
Proof.
  destruct s as [[t n] c g f]. unfold shift, with_clk. simpl.
  rewrite Z.add_assoc, Nat.add_assoc. reflexivity.
Qed.

Lemma samples_one interval total :
  0 < interval -> total <= interval -> samples interval total = 1%nat.
Proof.
  intros Hi Ht. unfold samples.
  assert ((total + interval - 1) / interval <= 1).
  { apply Z.lt_succ_r. apply Z.div_lt_upper_bound; lia. }
  rewrite Z.max_l by lia. reflexivity.
Qed.

Lemma samples_more interval total :
  0 < interval -> interval < total ->
  samples interval total = S (samples interval (total - interval)).
Proof.
  intros Hi Ht. unfold samples.
  replace (total + interval - 1) with ((total - interval + interval - 1) + 1 * interval) by lia.
  rewrite Z.div_add by lia.
  assert (1 <= (total - interval + interval - 1) / interval).
  { apply Z.div_le_lower_bound; lia. }
  rewrite !Z.max_r by lia.
  rewrite <- Z2Nat.inj_succ by lia. f_equal.
Qed.

Lemma log_entries_S r interval count s :
  log_entries r interval (S count) s
  = (s, Log r) :: log_entries r interval count (elapsed interval s).
Proof.
  unfold log_entries. simpl. rewrite Z.mul_0_r, elapsed_0. f_equal.
  rewrite <- seq_shift, map_map. apply map_ext. intros i.
  rewrite elapsed_elapsed. do 2 f_equal. lia.
Qed.

Lemma log_entries_1 r interval s : log_entries r interval 1 s = [(s, Log r)].
Proof. rewrite log_entries_S. reflexivity. Qed.

(** The periodic task with a logging action: it returns after exactly
    [total] ticks, having logged once per started interval. *)
Lemma each_from_log r interval n :
  forall remaining w,
    0 < interval ->
    remaining <= Z.of_nat n + interval ->
    each_from n interval (emit (Log r)) remaining w
    = Done tt (mk_world (elapsed (Z.max 0 remaining) (now w))
                        (trace w ++ log_entries r interval (samples interval remaining) (now w))).
Proof.
  induction n as [|n IH]; intros remaining w Hi Hn.
  - cbn [each_from]. unfold bind at 1. cbn [emit].
    destruct (Z.leb_spec remaining 0) as [H0|H0].
    + rewrite samples_one, log_entries_1, Z.max_l, elapsed_0 by lia. reflexivity.
    + unfold bind, sleep_ticks, modify. cbn [now trace].
      rewrite Z.min_r by lia.
      replace (remaining - remaining <=? 0) with true by (symmetry; apply Z.leb_le; lia).
      rewrite samples_one, log_entries_1, Z.max_r by lia. reflexivity.
  - cbn [each_from]. unfold bind at 1. cbn [emit].
    destruct (Z.leb_spec remaining 0) as [H0|H0].
    + rewrite samples_one, log_entries_1, Z.max_l, elapsed_0 by lia. reflexivity.
    + unfold bind at 1. unfold sleep_ticks, modify. cbn [now trace].
      destruct (Z.leb_spec (remaining - Z.min interval remaining) 0) as [H1|H1].
      * rewrite Z.min_r by lia.
        rewrite samples_one, log_entries_1, Z.max_r by lia. reflexivity.
      * rewrite Z.min_l in * by lia.
        rewrite IH by lia. cbn [now trace].
        rewrite (samples_more interval remaining), log_entries_S by lia.
        fold (elapsed interval (now w)). rewrite elapsed_elapsed.
        rewrite <- app_assoc. simpl.
        rewrite !Z.max_r by lia. do 3 f_equal. lia.
Qed.

Lemma each_log r interval total w :
  0 < interval -> 0 <= total ->
  each interval (emit (Log r)) total w
  = Done tt (mk_world (elapsed total (now w))
                      (trace w ++ log_entries r interval (samples interval total) (now w))).
Proof.
  intros Hi Ht. unfold each. rewrite each_from_log by lia.
  rewrite Z.max_r by lia. reflexivity.
Qed.

Ltac status_eq :=
  unfold shift, elapsed, commanding, under_control,
    with_clk, with_ctl, with_tgt, with_cfg, advance, polled;
  cbn [clk ctl tgt cfg ticks polls];
  repeat first [reflexivity | lia | progress f_equal].

Lemma polled_entries_S r d count s :
  polled_entries r d (S count) s
  = (shift 0 1 s, Log r) :: polled_entries r d count (shift d 1 s).
Proof.
  unfold polled_entries. simpl. f_equal.
  - f_equal. status_eq.
  - rewrite <- seq_shift, map_map. apply map_ext. intros i.
    rewrite shift_shift. do 2 f_equal; lia.
Qed.

Variable encoder_average_micrometers : nat -> Z.

(** A polling loop whose body logs one record and sleeps [d] ticks: when
    the test holds at the next [n] polls and fails at the one after, the
    loop makes [n] iterations and returns right after that poll. *)
Lemma poll_loop_exact (test : Z -> bool) (r : log_record) (d : Z) (body : M unit) :
  (forall w, body w = Done tt (mk_world (elapsed d (now w)) (trace w ++ [(now w, Log r)]))) ->
  forall (n fuel : nat) (w : world),
    (forall j, (j < n)%nat ->
               test (encoder_average_micrometers (polls (clk (now w)) + j)%nat) = true) ->
    test (encoder_average_micrometers (polls (clk (now w)) + n)%nat) = false ->
    (n < fuel)%nat ->
    while fuel
      (x <- get_encoder_average_micrometers encoder_average_micrometers ;; ret (test x))
      body w
    = Done tt (mk_world (shift (d * Z.of_nat n) (S n) (now w))
                        (trace w ++ polled_entries r d n (now w))).
Proof.
  intros Hbody. induction n as [|n IH]; intros fuel w Htrue Hfalse Hfuel.
  - destruct fuel as [|fuel]; [lia|].
    cbn [while]. unfold bind, get_encoder_average_micrometers, ret.
    rewrite Nat.add_0_r in Hfalse. rewrite Hfalse.
    cbn [now trace polled_entries map seq]. rewrite app_nil_r.
    f_equal. f_equal. status_eq.
  - destruct fuel as [|fuel]; [lia|].
    cbn [while]. unfold bind at 1 2. unfold get_encoder_average_micrometers at 1.
    unfold ret at 1.
    pose proof (Htrue 0%nat ltac:(lia)) as H0. rewrite Nat.add_0_r in H0. rewrite H0.
    unfold bind at 1. rewrite Hbody. cbn [now trace].
    rewrite IH.
    + cbn [now trace]. rewrite polled_entries_S, <- app_assoc. simpl.
      f_equal. f_equal.
      * status_eq.
      * status_eq.
    + intros j Hj. cbn. specialize (Htrue (S j) ltac:(lia)).
      rewrite <- Htrue. do 2 f_equal. lia.
    + cbn. rewrite <- Hfalse. do 2 f_equal. lia.
    + lia.
Qed.

Ltac simpl_status :=
  unfold shift, elapsed, commanding, under_control,
    with_clk, with_ctl, with_tgt, with_cfg, advance, polled;
  cbn [now trace clk ctl tgt cfg ticks polls
       side_sensors front_sensors motor target_linear_speed target_angular_speed
       linear_acceleration linear_deceleration max_linear_speed].

Ltac close_run :=
  simpl_status;
  rewrite <- ?app_assoc; cbn [app];
  repeat first [reflexivity | lia | progress f_equal].

Ltac run_call :=
  erewrite bind_done; [| solve [reflexivity]]; simpl_status.

Ltac run_each :=
  erewrite bind_done; [| solve [apply each_log; lia]]; simpl_status.

Variable required_micrometers : status -> float -> float.
Variables PI CELL_DIMENSION WALL_WIDTH MOUSE_TAIL MOUSE_HEAD MICROMETERS_PER_METER : float.

Lemma linear_profile_run (fuel n : nat) (w : world) :
  let p0 := polls (clk (now w)) in
  let start := encoder_average_micrometers p0 in
  (forall j, (j < n)%nat ->
     (int32_sub (encoder_average_micrometers (S p0 + j)) start <? 500000) = true) ->
  (int32_sub (encoder_average_micrometers (S p0 + n)) start <? 500000) = false ->
  (n < fuel)%nat ->
  run_linear_speed_profile encoder_average_micrometers fuel w
  = Done tt (mk_world
       (elapsed 2000 (commanding 0%Q 0%Q
          (shift (Z.of_nat n) (S n)
             (shift 0 1 (commanding (max_linear_speed (cfg (now w))) 0%Q
                           (elapsed 1000 (under_control (now w))))))))
       (trace w ++ linear_profile_trace (now w) n)).
Proof.
  destruct w as [[[t p] [sd fr mo] [tl ta] [la ld vm]] tr].
  simpl_status. intros Htrue Hfalse Hfuel.
  unfold run_linear_speed_profile.
  do 2 run_call. run_each. do 4 run_call.
  erewrite bind_done;
    [| solve [apply (poll_loop_exact _ LinearSpeed 1) with (n := n);
              [reflexivity | exact Htrue | exact Hfalse | exact Hfuel]]].
  simpl_status.
  do 2 run_call. run_each. unfold reset_motion, emit.
  unfold linear_profile_trace.
  change (samples 10 1000) with 100%nat. change (samples 1 2000) with 2000%nat.
  close_run.
Qed.

Lemma angular_profile_run (w : world) :
  run_angular_speed_profile PI w
  = Done tt (mk_world
       (elapsed 2000 (commanding 0%Q 0%Q (elapsed (angular_hold PI)
          (commanding 0%Q (turn_speed PI) (elapsed 1000 (under_control (now w)))))))
       (trace w ++ turn_profile_trace (now w) (turn_speed PI) (angular_hold PI) 2000)).
Proof.
  pose proof (angular_hold_nonneg PI) as Hh.
  destruct w as [[[t p] [sd fr mo] [tl ta] [la ld vm]] tr].
  unfold run_angular_speed_profile.
  change (to_float (to_double (4 * to_double PI))) with (turn_speed PI).
  change (float_to_int
            (to_double (to_double (1000 * to_double (3 * to_double PI)) / turn_speed PI)))
    with (angular_hold PI).
  generalize dependent (angular_hold PI). generalize (turn_speed PI).
  intros speed hold Hh.
  do 2 run_call. run_each. do 2 run_call. run_each. do 2 run_call. run_each.
  unfold reset_motion, emit. unfold turn_profile_trace.
  change (samples 10 1000) with 100%nat. close_run.
Qed.

Lemma static_turn_profile_run (w : world) :
  run_static_turn_right_profile PI w
  = Done tt (mk_world
       (elapsed 200 (commanding 0%Q 0%Q (elapsed (static_turn_hold PI)
          (commanding 0%Q (turn_speed PI) (elapsed 1000 (under_control (now w)))))))
       (trace w ++ turn_profile_trace (now w) (turn_speed PI) (static_turn_hold PI) 200)).
Proof.
  pose proof (static_turn_hold_nonneg PI) as Hh.
  destruct w as [[[t p] [sd fr mo] [tl ta] [la ld vm]] tr].
  unfold run_static_turn_right_profile.
  change (to_float (to_double (4 * to_double PI))) with (turn_speed PI).
  change (float_to_int
            (to_double (to_double (1000 * to_double (to_double PI / 2)) / turn_speed PI)))
    with (static_turn_hold PI).
  generalize dependent (static_turn_hold PI). generalize (turn_speed PI).
  intros speed hold Hh.
  do 2 run_call. run_each. do 2 run_call. run_each. do 2 run_call. run_each.
  unfold reset_motion, emit. unfold turn_profile_trace.
  change (samples 10 1000) with 100%nat. close_run.
Qed.

Lemma front_calibration_run (fuel n : nat) (w : world) :
  let p0 := polls (clk (now w)) in
  let threshold :=
    int32_sub
      (front_target_micrometers encoder_average_micrometers
         CELL_DIMENSION MICROMETERS_PER_METER (now w))
      (front_micrometers_to_stop required_micrometers (now w)) in
  (forall j, (j < n)%nat ->
     (encoder_average_micrometers (S p0 + j) <? threshold) = true) ->
  (encoder_average_micrometers (S p0 + n) <? threshold) = false ->
  (n < fuel)%nat ->
  run_front_sensors_calibration encoder_average_micrometers required_micrometers
    CELL_DIMENSION MICROMETERS_PER_METER fuel w
  = Done tt (mk_world
       (with_acceleration (linear_acceleration (cfg (now w)))
          (elapsed 200 (commanding 0%Q 0%Q (shift 0 (S n) (front_query_status (now w))))))
       (trace w ++ front_calibration_trace (now w) n)).
Proof.
  destruct w as [[[t p] [sd fr mo] [tl ta] [la ld vm]] tr].
  unfold front_target_micrometers, front_micrometers_to_stop, front_query_status,
    with_acceleration.
  simpl_status. intros Htrue Hfalse Hfuel.
  unfold run_front_sensors_calibration.
  do 8 run_call. cbv zeta.
  erewrite bind_done;
    [| solve [apply (poll_loop_exact _ FrontSensorsCalibration 0) with (n := n);
              [intros w0; rewrite elapsed_0; reflexivity
              | exact Htrue | exact Hfalse | exact Hfuel]]].
  simpl_status.
  do 2 run_call. run_each. run_call.
  unfold reset_motion, emit.
  unfold front_calibration_trace, front_query_status, with_acceleration.
  change (samples 2 200) with 100%nat. close_run.
Qed.

Lemma micrometers_calibration_run (cells : Z) (w : world) :
  run_micrometers_per_count_calibration encoder_average_micrometers
    CELL_DIMENSION WALL_WIDTH MOUSE_TAIL MOUSE_HEAD cells w
  = Done tt (mk_world
       (shift 0 2 (under_control (now w)))
       (trace w ++ micrometers_calibration_trace encoder_average_micrometers
                     CELL_DIMENSION WALL_WIDTH MOUSE_TAIL MOUSE_HEAD cells (now w))).
Proof.
  destruct w as [[[t p] [sd fr mo] [tl ta] [la ld vm]] tr].
  unfold run_micrometers_per_count_calibration.
  do 20 run_call.
  unfold reset_motion, emit.
  unfold micrometers_calibration_trace, with_acceleration. close_run.
Qed.

(** *** Rules for commands that may not return *)

Lemma triple_ret {A : Type} J (P : status -> Prop) (a : A) :
  triple J P (ret a) (fun _ s => P s).
Proof. intros w HP. exists []. rewrite app_nil_r. simpl. auto. Qed.

Lemma triple_spin {A : Type} J (P : status -> Prop) (Q : A -> status -> Prop) :
  triple J P (fun w => Spin w) Q.
Proof. intros w HP. exists []. rewrite app_nil_r. simpl. auto. Qed.

Lemma triple_bind {A B : Type} J P (R : A -> status -> Prop) (Q : B -> status -> Prop)
      (c : M A) (k : A -> M B) :
  triple J P c R -> (forall a, triple J (R a) (k a) Q) -> triple J P (bind c k) Q.
Proof.
  intros Hc Hk w HP. destruct (Hc w HP) as (es1 & Htr1 & HJ1 & HR).
  unfold bind. destruct (c w) as [a w1|w1]; simpl in *.
  - destruct (Hk a w1 HR) as (es2 & Htr2 & HJ2 & HQ).
    exists (es1 ++ es2). rewrite Htr2, Htr1, app_assoc.
    repeat split; auto. apply Forall_app; auto.
  - exists es1. auto.
Qed.

Lemma keeps_bind {A B : Type} P (c : M A) (k : A -> M B) :
  keeps P c -> (forall a, keeps P (k a)) -> keeps P (bind c k).
Proof. intros Hc Hk. unfold keeps in *. eapply triple_bind; eauto. Qed.

Lemma keeps_ret {A : Type} P (a : A) : keeps P (ret a).
Proof. apply triple_ret. Qed.

Lemma keeps_emit P (c : call) : keeps P (emit c).
Proof.
  intros w HP. exists [(now w, c)]. simpl. repeat split; auto.
Qed.

Lemma keeps_modify P (f : status -> status) :
  (forall s, P s -> P (f s)) -> keeps P (modify f).
Proof.
  intros Hf w HP. exists []. rewrite app_nil_r. simpl. auto.
Qed.

Lemma keeps_gets {A : Type} P (f : status -> A) : keeps P (gets f).
Proof. intros w HP. exists []. rewrite app_nil_r. simpl. auto. Qed.

Lemma keeps_poll P : stable P -> keeps P (get_encoder_average_micrometers encoder_average_micrometers).
Proof.
  intros (_ & Hp & _) w HP. exists []. rewrite app_nil_r. simpl. auto.
Qed.

Lemma keeps_sleep P n : stable P -> 0 <= n -> keeps P (sleep_ticks n).
Proof. intros (Ht & _) Hn. apply keeps_modify. intros s. apply Ht. exact Hn. Qed.

Lemma keeps_set_target_linear_speed P v : stable P -> keeps P (set_target_linear_speed v).
Proof.
  intros (_ & _ & Hg & _). apply keeps_bind; [apply keeps_emit|].
  intros _. apply keeps_modify. intros s. apply Hg.
Qed.

Lemma keeps_set_target_angular_speed P v : stable P -> keeps P (set_target_angular_speed v).
Proof.
  intros (_ & _ & Hg & _). apply keeps_bind; [apply keeps_emit|].
  intros _. apply keeps_modify. intros s. apply Hg.
Qed.

Lemma keeps_set_linear_acceleration P v : stable P -> keeps P (set_linear_acceleration v).
Proof.
  intros (_ & _ & _ & Hc). apply keeps_bind; [apply keeps_emit|].
  intros _. apply keeps_modify. intros s. apply Hc.
Qed.

Lemma keeps_while P fuel (cond : M bool) (body : M unit) :
  keeps P cond -> keeps P body -> keeps P (while fuel cond body).
Proof.
  intros Hc Hb. induction fuel as [|fuel IH].
  - apply triple_spin.
  - cbn [while]. apply keeps_bind; [exact Hc|].
    intros [|]; [|apply keeps_ret].
    apply keeps_bind; [exact Hb|]. intros _. exact IH.
Qed.

Lemma keeps_each_from P n interval (action : M unit) :
  stable P -> 0 <= interval -> keeps P action ->
  forall remaining, keeps P (each_from n interval action remaining).
Proof.
  intros HP Hi Ha. induction n as [|n IH]; intros remaining.
  - cbn [each_from]. apply keeps_bind; [exact Ha|]. intros _.
    destruct (Z.leb_spec remaining 0); [apply keeps_ret|].
    apply keeps_bind; [apply keeps_sleep; [exact HP|lia]|]. intros _.
    destruct (remaining - Z.min interval remaining <=? 0);
      [apply keeps_ret|apply triple_spin].
  - cbn [each_from]. apply keeps_bind; [exact Ha|]. intros _.
    destruct (Z.leb_spec remaining 0); [apply keeps_ret|].
    apply keeps_bind; [apply keeps_sleep; [exact HP|lia]|]. intros _.
    destruct (remaining - Z.min interval remaining <=? 0);
      [apply keeps_ret|apply IH].
Qed.

Lemma keeps_each P interval (action : M unit) total :
  stable P -> 0 <= interval -> keeps P action -> keeps P (each interval action total).
Proof. intros HP Hi Ha. unfold each. apply keeps_each_from; assumption. Qed.

Ltac keeps_tac HP :=
  repeat (cbv zeta;
    lazymatch goal with
    | |- keeps _ (bind _ _) => apply keeps_bind; [|intros ?]
    | |- keeps _ (ret _) => apply keeps_ret
    | |- keeps _ (while _ _ _) => apply keeps_while
    | |- keeps _ (each _ _ _) => apply (keeps_each _ _ _ _ HP); [lia|]
    | |- keeps _ (sleep_ticks _) => apply (keeps_sleep _ _ HP); lia
    | |- keeps _ (set_target_linear_speed _) =>
        apply (keeps_set_target_linear_speed _ _ HP)
    | |- keeps _ (set_target_angular_speed _) =>
        apply (keeps_set_target_angular_speed _ _ HP)
    | |- keeps _ (set_linear_acceleration _) =>
        apply (keeps_set_linear_acceleration _ _ HP)
    | |- keeps _ (get_encoder_average_micrometers _) => apply (keeps_poll _ HP)
    | |- keeps _ get_max_linear_speed => apply keeps_gets
    | |- keeps _ get_linear_acceleration => apply keeps_gets
    | |- keeps _ (required_micrometers_to_speed _ _) => apply keeps_gets
    | |- keeps _ log_linear_speed => apply keeps_emit
    | |- keeps _ log_angular_speed => apply keeps_emit
    | |- keeps _ log_front_sensors_calibration => apply keeps_emit
    | |- keeps _ reset_motion => apply keeps_emit
    end).

Lemma walls_off_stable : stable walls_off_motor_on.
Proof. unfold stable. split; [|split; [|split]]; intros; assumption. Qed.

Lemma not_before_stable (t0 : Z) : stable (fun s => t0 <= ticks (clk s)).
Proof.
  unfold stable. split; [|split; [|split]]; intros; simpl in *; try assumption; lia.
Qed.

(** *** The calibration procedures *)

Lemma log_entries_polls r interval count s (q : nat) :
  polls (clk s) = q ->
  Forall (fun e : entry => polls (clk (fst e)) = q) (log_entries r interval count s).
Proof.
  intros H. unfold log_entries. apply Forall_forall. intros e He.
  apply in_map_iff in He. destruct He as (i & <- & _). exact H.
Qed.

Ltac trace_eq :=
  cbv zeta;
  repeat match goal with
         | |- context [log_entries ?r ?i ?c ?s] =>
             generalize (log_entries r i c s); intro
         | |- context [polled_entries ?r ?d ?c ?s] =>
             generalize (polled_entries r d c s); intro
         end;
  rewrite <- ?app_assoc; cbn [app]; reflexivity.

Lemma linear_profile_returns (fuel n : nat) (w : world) :
  reaches_travel_distance encoder_average_micrometers (polls (clk (now w))) n ->
  (n < fuel)%nat ->
  run_linear_speed_profile encoder_average_micrometers fuel w
  = Done tt (mk_world
       (elapsed 2000 (commanding 0%Q 0%Q
          (shift (Z.of_nat n) (S n)
             (shift 0 1 (commanding (max_linear_speed (cfg (now w))) 0%Q
                           (elapsed 1000 (under_control (now w))))))))
       (trace w ++ linear_profile_trace (now w) n)).
Proof.
  intros (Hrange & Hbelow & Hreach) Hfuel.
  apply linear_profile_run; [| |exact Hfuel].
  - intros j Hj. unfold int32_sub.
    replace (S (polls (clk (now w))) + j)%nat with (polls (clk (now w)) + S j)%nat by lia.
    rewrite wrap_s32_small by (apply (Hrange (S j)); lia).
    apply Z.ltb_lt. apply (Hbelow (S j)). lia.
  - unfold int32_sub.
    replace (S (polls (clk (now w))) + n)%nat with (polls (clk (now w)) + S n)%nat by lia.
    rewrite wrap_s32_small by (apply (Hrange (S n)); lia).
    apply Z.ltb_ge. exact Hreach.
Qed.

(** C3. In the linear speed profile, let the encoder be any sequence of
    readings whose differences to the reading taken at the phase start
    fit in 32 bits. If the first [n] polls of the travel loop read less
    than 500,000 micrometers since the phase start and the next poll
    reads at least 500,000, the procedure logs exactly once after each
    of those [n] polls and commands zero target speed right after poll
    [n + 1], the first that reads at least 500,000; nothing but these
    log records lies between the start of the phase and that command. *)
Theorem linear_travel_ends_at_first_reach (fuel n : nat) (w : world) :
  let p0 := polls (clk (now w)) in
  let travelled k :=
    encoder_average_micrometers (p0 + k)%nat - encoder_average_micrometers p0 in
  (forall k, (1 <= k <= S n)%nat -> in_int32 (travelled k)) ->
  (forall k, (1 <= k <= n)%nat -> travelled k < 500000) ->
  500000 <= travelled (S n) ->
  (n < fuel)%nat ->
  let s_travel :=
    shift 0 1 (commanding (max_linear_speed (cfg (now w))) 0%Q
                 (elapsed 1000 (under_control (now w)))) in
  let s_end := shift (Z.of_nat n) (S n) s_travel in
  exists w' before after,
    run_linear_speed_profile encoder_average_micrometers fuel w = Done tt w' /\
    trace w' = trace w ++ before
                 ++ polled_entries LinearSpeed 1 n s_travel
                 ++ (s_end, SetTargetAngularSpeed 0%Q)
                 :: (s_end, SetTargetLinearSpeed 0%Q) :: after /\
    Forall (fun e : entry => polls (clk (fst e)) = p0) before /\
    polls (clk s_travel) = S p0 /\
    polls (clk s_end) = S (p0 + S n).
Proof.
  intros p0 travelled Hrange Hbelow Hreach Hfuel s_travel s_end.
  pose proof (linear_profile_returns fuel n w (conj Hrange (conj Hbelow Hreach)) Hfuel)
    as Hrun.
  eexists.
  exists ([(now w, DisableWallsControl);
           (with_ctl (fun c => mk_controls false false (motor c)) (now w),
            EnableMotorControl)]
          ++ log_entries LinearSpeed 10 100 (under_control (now w))
          ++ [(elapsed 1000 (under_control (now w)), SetTargetAngularSpeed 0%Q);
              (commanding (target_linear_speed (tgt (now w))) 0%Q
                 (elapsed 1000 (under_control (now w))),
               SetTargetLinearSpeed (max_linear_speed (cfg (now w))))]).
  exists (log_entries LinearSpeed 1 2000 (commanding 0%Q 0%Q s_end)
          ++ [(elapsed 2000 (commanding 0%Q 0%Q s_end), ResetMotion)]).
  split; [exact Hrun|]. cbn [trace].
  split; [|split; [|split]].
  - unfold linear_profile_trace. cbv zeta. fold s_travel. fold s_end. trace_eq.
  - apply Forall_app. split; [|apply Forall_app; split].
    + constructor; [reflexivity|]. constructor; [reflexivity|]. constructor.
    + apply log_entries_polls. reflexivity.
    + constructor; [reflexivity|]. constructor; [reflexivity|]. constructor.
  - unfold s_travel, p0. simpl_status. lia.
  - unfold s_end, s_travel, p0. simpl_status. lia.
Qed.


(** C5. After the zero target speeds are commanded, the linear profile
    logs 2,000 records at a 1-tick cadence, the angular profile 200
    records at a 10-tick cadence and the static turn 20 records at a
    10-tick cadence, and each procedure then calls [reset_motion]
    exactly 2,000, 2,000 and 200 ticks after the zero command, whatever
    the encoder reads meanwhile. *)
Theorem settle_logging_lasts_configured_duration (fuel n : nat) (w : world) :
  reaches_travel_distance encoder_average_micrometers (polls (clk (now w))) n ->
  (n < fuel)%nat ->
  (exists w' before s,
     run_linear_speed_profile encoder_average_micrometers fuel w = Done tt w' /\
     trace w' = trace w ++ before
                  ++ [(s, SetTargetAngularSpeed 0%Q); (s, SetTargetLinearSpeed 0%Q)]
                  ++ log_entries LinearSpeed 1 2000 (commanding 0%Q 0%Q s)
                  ++ [(elapsed 2000 (commanding 0%Q 0%Q s), ResetMotion)]) /\
  (exists w' before s,
     run_angular_speed_profile PI w = Done tt w' /\
     trace w' = trace w ++ before
                  ++ [(s, SetTargetAngularSpeed 0%Q);
                      (commanding 0%Q 0%Q s, SetTargetLinearSpeed 0%Q)]
                  ++ log_entries AngularSpeed 10 200 (commanding 0%Q 0%Q s)
                  ++ [(elapsed 2000 (commanding 0%Q 0%Q s), ResetMotion)]) /\
  (exists w' before s,
     run_static_turn_right_profile PI w = Done tt w' /\
     trace w' = trace w ++ before
                  ++ [(s, SetTargetAngularSpeed 0%Q);
                      (commanding 0%Q 0%Q s, SetTargetLinearSpeed 0%Q)]
                  ++ log_entries AngularSpeed 10 20 (commanding 0%Q 0%Q s)
                  ++ [(elapsed 200 (commanding 0%Q 0%Q s), ResetMotion)]).
Proof.
  intros Hreach Hfuel. split; [|split].
  - pose proof (linear_profile_returns fuel n w Hreach Hfuel) as Hrun.
    eexists.
    exists ([(now w, DisableWallsControl);
             (with_ctl (fun c => mk_controls false false (motor c)) (now w),
              EnableMotorControl)]
            ++ log_entries LinearSpeed 10 100 (under_control (now w))
            ++ [(elapsed 1000 (under_control (now w)), SetTargetAngularSpeed 0%Q);
                (commanding (target_linear_speed (tgt (now w))) 0%Q
                   (elapsed 1000 (under_control (now w))),
                 SetTargetLinearSpeed (max_linear_speed (cfg (now w))))]
            ++ polled_entries LinearSpeed 1 n
                 (shift 0 1 (commanding (max_linear_speed (cfg (now w))) 0%Q
                               (elapsed 1000 (under_control (now w)))))).
    exists (shift (Z.of_nat n) (S n)
              (shift 0 1 (commanding (max_linear_speed (cfg (now w))) 0%Q
                            (elapsed 1000 (under_control (now w)))))).
    split; [exact Hrun|]. cbn [trace].
    unfold linear_profile_trace. trace_eq.
  - pose proof (angular_profile_run w) as Hrun. cbv zeta in Hrun.
    eexists.
    exists ([(now w, DisableWallsControl);
             (with_ctl (fun c => mk_controls false false (motor c)) (now w),
              EnableMotorControl)]
            ++ log_entries AngularSpeed 10 100 (under_control (now w))
            ++ [(elapsed 1000 (under_control (now w)), SetTargetAngularSpeed (turn_speed PI));
                (commanding (target_linear_speed (tgt (now w))) (turn_speed PI)
                   (elapsed 1000 (under_control (now w))),
                 SetTargetLinearSpeed 0%Q)]
            ++ log_entries AngularSpeed 10
                 (samples 10 (angular_hold PI))
                 (commanding 0%Q (turn_speed PI) (elapsed 1000 (under_control (now w))))).
    exists (elapsed (angular_hold PI)
              (commanding 0%Q (turn_speed PI) (elapsed 1000 (under_control (now w))))).
    split; [exact Hrun|]. cbn [trace].
    unfold turn_profile_trace. change (samples 10 2000) with 200%nat.
    generalize (angular_hold PI) (turn_speed PI). intros hold speed. trace_eq.
  - pose proof (static_turn_profile_run w) as Hrun. cbv zeta in Hrun.
    eexists.
    exists ([(now w, DisableWallsControl);
             (with_ctl (fun c => mk_controls false false (motor c)) (now w),
              EnableMotorControl)]
            ++ log_entries AngularSpeed 10 100 (under_control (now w))
            ++ [(elapsed 1000 (under_control (now w)), SetTargetAngularSpeed (turn_speed PI));
                (commanding (target_linear_speed (tgt (now w))) (turn_speed PI)
                   (elapsed 1000 (under_control (now w))),
                 SetTargetLinearSpeed 0%Q)]
            ++ log_entries AngularSpeed 10
                 (samples 10 (static_turn_hold PI))
                 (commanding 0%Q (turn_speed PI) (elapsed 1000 (under_control (now w))))).
    exists (elapsed (static_turn_hold PI)
              (commanding 0%Q (turn_speed PI) (elapsed 1000 (under_control (now w))))).
    split; [exact Hrun|]. cbn [trace].
    unfold turn_profile_trace. change (samples 10 200) with 20%nat.
    generalize (static_turn_hold PI) (turn_speed PI). intros hold speed. trace_eq.
Qed.

Lemma front_calibration_returns (fuel n : nat) (w : world) :
  reaches_stop_threshold encoder_average_micrometers required_micrometers
    CELL_DIMENSION MICROMETERS_PER_METER (now w) n ->
  (n < fuel)%nat ->
  run_front_sensors_calibration encoder_average_micrometers required_micrometers
    CELL_DIMENSION MICROMETERS_PER_METER fuel w
  = Done tt (mk_world
       (with_acceleration (linear_acceleration (cfg (now w)))
          (elapsed 200 (commanding 0%Q 0%Q (shift 0 (S n) (front_query_status (now w))))))
       (trace w ++ front_calibration_trace (now w) n)).
Proof.
  intros (Hrange & Hbelow & Hreach) Hfuel.
  apply front_calibration_run; [| |exact Hfuel].
  - intros j Hj. unfold int32_sub. rewrite wrap_s32_small by exact Hrange.
    replace (S (polls (clk (now w))) + j)%nat with (polls (clk (now w)) + S j)%nat by lia.
    apply Z.ltb_lt. apply (Hbelow (S j)). lia.
  - unfold int32_sub. rewrite wrap_s32_small by exact Hrange.
    replace (S (polls (clk (now w))) + n)%nat with (polls (clk (now w)) + S n)%nat by lia.
    apply Z.ltb_ge. exact Hreach.
Qed.

(** C6. The front-sensor calibration commands zero angular speed and a
    linear speed of 0.3 (the nearest [float]), asks once for the distance
    required to reach zero speed, and then polls the encoder: it logs one
    calibration record after every poll that reads less than the target
    minus that stopping distance, and commands zero target speed right
    after the first poll that reads at least the target minus the
    stopping distance. The target is the [int32_t] the code stores: the
    start reading plus [1.3 * CELL_DIMENSION * MICROMETERS_PER_METER],
    computed in [double] and cut to an integer; the stopping distance is
    the returned value cut to an [int32_t]; both conversions and the
    subtraction are taken within the 32-bit range. *)
Theorem front_approach_stops_at_threshold (fuel n : nat) (w : world) :
  let p0 := polls (clk (now w)) in
  let s_query := front_query_status (now w) in
  let target_double :=
    to_double (inject_Z (encoder_average_micrometers p0)
               + to_double (to_double (to_double (13 # 10) * to_double CELL_DIMENSION)
                            * to_double MICROMETERS_PER_METER)) in
  let target := float_to_int32 target_double in
  let stopping_distance := float_to_int32 (required_micrometers s_query 0%Q) in
  in_int32 (float_to_int target_double) ->
  in_int32 (float_to_int (required_micrometers s_query 0%Q)) ->
  in_int32 (target - stopping_distance) ->
  (forall k, (1 <= k <= n)%nat ->
     encoder_average_micrometers (p0 + k)%nat < target - stopping_distance) ->
  target - stopping_distance <= encoder_average_micrometers (p0 + S n)%nat ->
  (n < fuel)%nat ->
  let s_command := with_clk polled (with_acceleration 4%Q (under_control (now w))) in
  let s_end := shift 0 (S n) s_query in
  exists w' before after,
    run_front_sensors_calibration encoder_average_micrometers required_micrometers
      CELL_DIMENSION MICROMETERS_PER_METER fuel w = Done tt w' /\
    trace w' = trace w ++ before
                 ++ [(s_command, SetTargetAngularSpeed 0%Q);
                     (commanding (target_linear_speed (tgt (now w))) 0%Q s_command,
                      SetTargetLinearSpeed (to_float (to_double (3 # 10))))]
                 ++ polled_entries FrontSensorsCalibration 0 n s_query
                 ++ (s_end, SetTargetAngularSpeed 0%Q)
                 :: (s_end, SetTargetLinearSpeed 0%Q) :: after /\
    s_query = commanding (to_float (to_double (3 # 10))) 0%Q s_command /\
    target = float_to_int target_double /\
    stopping_distance = float_to_int (required_micrometers s_query 0%Q) /\
    polls (clk s_query) = S p0 /\
    polls (clk s_end) = S (p0 + S n).
Proof.
  intros p0 s_query target_double target stopping_distance
         Htarget Hstop Hrange Hbelow Hreach Hfuel s_command s_end.
  pose proof (front_calibration_returns fuel n w (conj Hrange (conj Hbelow Hreach)) Hfuel)
    as Hrun.
  change (to_float (to_double (3 # 10))) with approach_speed.
  eexists.
  exists [(now w, DisableWallsControl);
          (with_ctl (fun c => mk_controls false false (motor c)) (now w),
           EnableMotorControl);
          (under_control (now w), SetLinearAcceleration 4%Q)].
  exists (log_entries FrontSensorsCalibration 2 100 (commanding 0%Q 0%Q s_end)
          ++ [(elapsed 200 (commanding 0%Q 0%Q s_end),
               SetLinearAcceleration (linear_acceleration (cfg (now w))));
              (with_acceleration (linear_acceleration (cfg (now w)))
                 (elapsed 200 (commanding 0%Q 0%Q s_end)), ResetMotion)]).
  split; [exact Hrun|]. cbn [trace].
  split; [|split; [|split; [|split; [|split]]]].
  - unfold front_calibration_trace. cbv zeta. fold s_query. fold s_end. fold s_command.
    generalize approach_speed. intros v. trace_eq.
  - reflexivity.
  - unfold target, float_to_int32. apply wrap_s32_small. exact Htarget.
  - unfold stopping_distance, float_to_int32. apply wrap_s32_small. exact Hstop.
  - unfold s_query, front_query_status, with_acceleration, p0. simpl_status. lia.
  - unfold s_end, s_query, front_query_status, with_acceleration, p0. simpl_status. lia.
Qed.

(** C7. The micrometers-per-count calibration returns with the linear
    acceleration, the linear deceleration and the maximum linear speed
    it was entered with, and the front-sensor calibration, when the
    encoder reaches its stop threshold, returns with the linear
    acceleration it was entered with. *)
Theorem calibration_restores_configuration (cells : Z) (fuel n : nat) (w : world) :
  reaches_stop_threshold encoder_average_micrometers required_micrometers
    CELL_DIMENSION MICROMETERS_PER_METER (now w) n ->
  (n < fuel)%nat ->
  (exists w1,
     run_micrometers_per_count_calibration encoder_average_micrometers
       CELL_DIMENSION WALL_WIDTH MOUSE_TAIL MOUSE_HEAD cells w = Done tt w1 /\
     linear_acceleration (cfg (now w1)) = linear_acceleration (cfg (now w)) /\
     linear_deceleration (cfg (now w1)) = linear_deceleration (cfg (now w)) /\
     max_linear_speed (cfg (now w1)) = max_linear_speed (cfg (now w))) /\
  (exists w2,
     run_front_sensors_calibration encoder_average_micrometers required_micrometers
       CELL_DIMENSION MICROMETERS_PER_METER fuel w = Done tt w2 /\
     linear_acceleration (cfg (now w2)) = linear_acceleration (cfg (now w))).
Proof.
  intros Hreach Hfuel. split.
  - eexists. split; [apply micrometers_calibration_run|]. repeat split.
  - eexists. split; [apply (front_calibration_returns fuel n w Hreach Hfuel)|].
    reflexivity.
Qed.

Ltac use_keeps P HP :=
  match goal with
  | |- context [final (?c ?w1)] =>
      let Hk := fresh "Hk" in
      assert (Hk : keeps P c) by (keeps_tac HP);
      let es := fresh "es" in
      let Htr := fresh "Htr" in
      let HJ := fresh "HJ" in
      destruct (Hk w1) as (es & Htr & HJ & _);
      [ | exists es; split; [rewrite Htr; cbn [trace]; rewrite <- ?app_assoc; reflexivity
                            | exact HJ] ]
  end.

Ltac run_prefix :=
  erewrite bind_done; [| solve [reflexivity]]; cbn [now trace].

Lemma linear_profile_guarded fuel w :
  guarded_run (run_linear_speed_profile encoder_average_micrometers fuel) w.
Proof.
  unfold guarded_run, run_linear_speed_profile. do 2 run_prefix.
  use_keeps walls_off_motor_on walls_off_stable.
  repeat split.
Qed.

Lemma angular_profile_guarded w : guarded_run (run_angular_speed_profile PI) w.
Proof.
  unfold guarded_run, run_angular_speed_profile. cbv zeta. do 2 run_prefix.
  use_keeps walls_off_motor_on walls_off_stable.
  repeat split.
Qed.

Lemma static_turn_profile_guarded w : guarded_run (run_static_turn_right_profile PI) w.
Proof.
  unfold guarded_run, run_static_turn_right_profile. cbv zeta. do 2 run_prefix.
  use_keeps walls_off_motor_on walls_off_stable.
  repeat split.
Qed.

Lemma front_calibration_guarded fuel w :
  guarded_run (run_front_sensors_calibration encoder_average_micrometers
                 required_micrometers CELL_DIMENSION MICROMETERS_PER_METER fuel) w.
Proof.
  unfold guarded_run, run_front_sensors_calibration. do 3 run_prefix.
  use_keeps walls_off_motor_on walls_off_stable.
  repeat split.
Qed.

(** C9, as the code has it. The linear profile, the angular profile, the
    static turn and the front-sensor calibration switch walls control
    off and motor control on before any other call, and every later call
    of the run, every motion command among them, is made in that state,
    whether the run returns or not. The micrometers-per-count
    calibration makes its motion commands with motor control on and
    front-sensor control off, but its acceleration ramp runs with
    side-sensor control switched on; walls control is off when it
    decelerates. *)
Theorem walls_control_during_calibration (fuel : nat) (cells : Z) (w : world) :
  guarded_run (run_linear_speed_profile encoder_average_micrometers fuel) w /\
  guarded_run (run_angular_speed_profile PI) w /\
  guarded_run (run_static_turn_right_profile PI) w /\
  guarded_run (run_front_sensors_calibration encoder_average_micrometers
                 required_micrometers CELL_DIMENSION MICROMETERS_PER_METER fuel) w /\
  exists w' steps,
    run_micrometers_per_count_calibration encoder_average_micrometers
      CELL_DIMENSION WALL_WIDTH MOUSE_TAIL MOUSE_HEAD cells w = Done tt w' /\
    trace w' = trace w ++ steps /\
    Forall (fun e : entry =>
              is_motion_command (snd e) = true ->
              motor (ctl (fst e)) = true /\ front_sensors (ctl (fst e)) = false) steps /\
    (forall s start distance,
        In (s, Accelerate start distance) steps -> side_sensors (ctl s) = true) /\
    (forall s start distance speed,
        In (s, Decelerate start distance speed) steps -> walls_off_motor_on s).
Proof.
  split; [apply linear_profile_guarded|].
  split; [apply angular_profile_guarded|].
  split; [apply static_turn_profile_guarded|].
  split; [apply front_calibration_guarded|].
  eexists. eexists. split; [apply micrometers_calibration_run|].
  split; [reflexivity|].
  unfold micrometers_calibration_trace. cbv zeta.
  split; [|split].
  - repeat (constructor; [simpl; intros H; try discriminate H; split; reflexivity|]).
    constructor.
  - intros s start distance Hin. simpl in Hin.
    repeat (destruct Hin as [Hin|Hin]; [try discriminate Hin|]); try contradiction.
    inversion Hin; subst. reflexivity.
  - intros s start distance speed Hin. simpl in Hin.
    repeat (destruct Hin as [Hin|Hin]; [try discriminate Hin|]); try contradiction.
    inversion Hin; subst. repeat split.
Qed.

(** C10. In the linear speed profile, the angular speed profile and the
    static turn, the calls that follow the enabling of motor control are
    100 log records at a 10-tick cadence, and every other call of the
    run, every target speed command among them, is made at least 1000
    ticks after the procedure was entered, whether the run returns or
    not. *)
Theorem motion_waits_for_prelog (fuel : nat) (w : world) :
  waits_for_prelog LinearSpeed
    (run_linear_speed_profile encoder_average_micrometers fuel) w /\
  waits_for_prelog AngularSpeed (run_angular_speed_profile PI) w /\
  waits_for_prelog AngularSpeed (run_static_turn_right_profile PI) w.
Proof.
  split; [|split].
  - unfold waits_for_prelog, run_linear_speed_profile. do 2 run_prefix.
    erewrite bind_done; [| solve [apply each_log; lia]]. cbn [now trace].
    change (samples 10 1000) with 100%nat.
    use_keeps (fun s => ticks (clk (now w)) + 1000 <= ticks (clk s))
              (not_before_stable (ticks (clk (now w)) + 1000)).
    simpl. lia.
  - unfold waits_for_prelog, run_angular_speed_profile. cbv zeta. do 2 run_prefix.
    erewrite bind_done; [| solve [apply each_log; lia]]. cbn [now trace].
    change (samples 10 1000) with 100%nat.
    use_keeps (fun s => ticks (clk (now w)) + 1000 <= ticks (clk s))
              (not_before_stable (ticks (clk (now w)) + 1000)).
    simpl. lia.
  - unfold waits_for_prelog, run_static_turn_right_profile. cbv zeta. do 2 run_prefix.
    erewrite bind_done; [| solve [apply each_log; lia]]. cbn [now trace].
    change (samples 10 1000) with 100%nat.
    use_keeps (fun s => ticks (clk (now w)) + 1000 <= ticks (clk s))
              (not_before_stable (ticks (clk (now w)) + 1000)).
    simpl. lia.
Qed.

(** *** Runs that do not return, and what returning runs leave behind *)

Lemma shift_0_0 s : shift 0 0 s = s.
Proof.
  destruct s as [[t p] c g f]. unfold shift, with_clk. simpl.
  rewrite Z.add_0_r, Nat.add_0_r. reflexivity.
Qed.

(** A polling loop whose test holds at every poll uses up whatever fuel
    it is given, logging once per poll. *)
Lemma poll_loop_spins (test : Z -> bool) (r : log_record) (d : Z) (body : M unit) :
  (forall w, body w = Done tt (mk_world (elapsed d (now w)) (trace w ++ [(now w, Log r)]))) ->
  forall (fuel : nat) (w : world),
    (forall j, test (encoder_average_micrometers (polls (clk (now w)) + j)%nat) = true) ->
    while fuel
      (x <- get_encoder_average_micrometers encoder_average_micrometers ;; ret (test x))
      body w
    = Spin (mk_world (shift (d * Z.of_nat fuel) fuel (now w))
                     (trace w ++ polled_entries r d fuel (now w))).
Proof.
  intros Hbody. induction fuel as [|fuel IH]; intros w Htrue.
  - cbn [while polled_entries seq map]. rewrite app_nil_r, Z.mul_0_r, shift_0_0.
    destruct w; reflexivity.
  - cbn [while]. unfold bind at 1 2. unfold get_encoder_average_micrometers at 1.
    unfold ret at 1.
    pose proof (Htrue 0%nat) as H0. rewrite Nat.add_0_r in H0. rewrite H0.
    unfold bind at 1. rewrite Hbody. cbn [now trace].
    rewrite IH.
    + cbn [now trace]. rewrite polled_entries_S, <- app_assoc. simpl.
      f_equal. f_equal.
      * status_eq.
      * status_eq.
    + intros j. cbn. specialize (Htrue (S j)).
      rewrite <- Htrue. do 2 f_equal. lia.
Qed.

Lemma bind_spin {A B : Type} (c : M A) (k : A -> M B) w w1 :
  c w = Spin w1 -> bind c k w = Spin w1.
Proof. intros H. unfold bind. rewrite H. reflexivity. Qed.

Lemma bind_inv {A B : Type} (c : M A) (k : A -> M B) w b w' :
  bind c k w = Done b w' -> exists a w1, c w = Done a w1 /\ k a w1 = Done b w'.
Proof.
  unfold bind. destruct (c w) as [a w1|w1]; [|discriminate].
  intros H. exists a, w1. split; [reflexivity|exact H].
Qed.

(** X13. The travel loop of the linear speed profile has no other exit
    than the distance: when no poll ever reads 500,000 micrometers more
    than the start reading, the procedure never returns and never
    commands zero speed; after the command of the maximum speed it only
    logs, once per tick, for as long as it is run. *)
Theorem linear_profile_never_returns (fuel : nat) (w : world) :
  let p0 := polls (clk (now w)) in
  (forall k, (1 <= k)%nat ->
     int32_sub (encoder_average_micrometers (p0 + k)%nat)
               (encoder_average_micrometers p0) < 500000) ->
  let s_travel :=
    shift 0 1 (commanding (max_linear_speed (cfg (now w))) 0%Q
                 (elapsed 1000 (under_control (now w)))) in
  exists w',
    run_linear_speed_profile encoder_average_micrometers fuel w = Spin w' /\
    trace w' = trace w ++ Procedures.linear_profile_start (now w)
                 ++ polled_entries LinearSpeed 1 fuel s_travel /\
    target_linear_speed (tgt (now w')) = max_linear_speed (cfg (now w)) /\
    ticks (clk (now w')) = ticks (clk (now w)) + 1000 + Z.of_nat fuel.
Proof.
  destruct w as [[[t p] [sd fr mo] [tl ta] [la ld vm]] tr].
  simpl_status. intros Hbelow.
  unfold run_linear_speed_profile.
  do 2 run_call. run_each. do 4 run_call.
  erewrite bind_spin;
    [| apply (poll_loop_spins _ LinearSpeed 1);
       [reflexivity
       | intros j; cbn [now clk polls]; apply Z.ltb_lt;
         replace (S p + j)%nat with (p + S j)%nat by lia; apply Hbelow; lia]].
  eexists. split; [reflexivity|]. cbn [now trace].
  split; [|split].
  - unfold Procedures.linear_profile_start.
    change (samples 10 1000) with 100%nat. close_run.
  - reflexivity.
  - simpl_status. lia.
Qed.

(** X14. The approach loop of the front-sensor calibration has no other
    exit either: when no poll ever reads the stop threshold, the
    [int32_t] target the code stores minus the [int32_t] stopping
    distance, the procedure never returns, keeps the linear speed of 0.3
    (the nearest [float]) commanded and the linear acceleration at 4
    instead of the value it was entered with, and only logs calibration
    records. *)
Theorem front_calibration_never_returns (fuel : nat) (w : world) :
  let p0 := polls (clk (now w)) in
  let target_double :=
    to_double (inject_Z (encoder_average_micrometers p0)
               + to_double (to_double (to_double (13 # 10) * to_double CELL_DIMENSION)
                            * to_double MICROMETERS_PER_METER)) in
  let target_micrometers := float_to_int32 target_double in
  let stop := required_micrometers (front_query_status (now w)) 0%Q in
  let micrometers_to_stop := float_to_int32 stop in
  in_int32 (float_to_int target_double) ->
  in_int32 (float_to_int stop) ->
  in_int32 (target_micrometers - micrometers_to_stop) ->
  (forall k, (1 <= k)%nat ->
     encoder_average_micrometers (p0 + k)%nat < target_micrometers - micrometers_to_stop) ->
  exists w',
    run_front_sensors_calibration encoder_average_micrometers required_micrometers
      CELL_DIMENSION MICROMETERS_PER_METER fuel w = Spin w' /\
    trace w' = trace w ++ Procedures.front_calibration_start (now w)
                 ++ polled_entries FrontSensorsCalibration 0 fuel
                      (front_query_status (now w)) /\
    target_linear_speed (tgt (now w')) = to_float (to_double (3 # 10)) /\
    linear_acceleration (cfg (now w')) = 4%Q.
Proof.
  destruct w as [[[t p] [sd fr mo] [tl ta] [la ld vm]] tr].
  unfold front_query_status, with_acceleration.
  simpl_status. intros _ _ Hrange Hbelow.
  unfold run_front_sensors_calibration.
  change (to_float (to_double (3 # 10))) with approach_speed.
  do 8 run_call. cbv zeta.
  erewrite bind_spin;
    [| apply (poll_loop_spins _ FrontSensorsCalibration 0);
       [intros w0; rewrite elapsed_0; reflexivity
       | intros j; cbn [now clk polls]; apply Z.ltb_lt;
         unfold int32_sub; rewrite wrap_s32_small by exact Hrange;
         replace (S p + j)%nat with (p + S j)%nat by lia; apply Hbelow; lia]].
  eexists. split; [reflexivity|]. cbn [now trace].
  split; [|split].
  - unfold Procedures.front_calibration_start, front_query_status, with_acceleration.
    close_run.
  - reflexivity.
  - reflexivity.
Qed.

Lemma stops_bind {A : Type} (c : M A) (k : A -> M unit) :
  (forall a, Procedures.stops_and_resets (k a)) -> Procedures.stops_and_resets (bind c k).
Proof.
  intros Hk w w' Hrun. apply bind_inv in Hrun.
  destruct Hrun as (a & w1 & _ & Hrun). exact (Hk a w1 w' Hrun).
Qed.

(** The last phase of the profiles: zero commands, [total] ticks of
    logging, reset. *)
Lemma settle_stops (r : log_record) (interval total : Z) :
  0 < interval -> 0 <= total ->
  Procedures.stops_and_resets
    (set_target_angular_speed 0%Q ;; set_target_linear_speed 0%Q ;;
     each interval (emit (Log r)) total ;; reset_motion).
Proof.
  intros Hi Ht w w' Hrun.
  assert (E : (set_target_angular_speed 0%Q ;; set_target_linear_speed 0%Q ;;
               each interval (emit (Log r)) total ;; reset_motion) w
              = Done tt (mk_world (elapsed total (commanding 0%Q 0%Q (now w)))
                  (((trace w
                     ++ [(now w, SetTargetAngularSpeed 0%Q);
                         (with_tgt (fun t => mk_targets (target_linear_speed t) 0%Q) (now w),
                          SetTargetLinearSpeed 0%Q)])
                    ++ log_entries r interval (samples interval total)
                         (commanding 0%Q 0%Q (now w)))
                   ++ [(elapsed total (commanding 0%Q 0%Q (now w)), ResetMotion)]))).
  { destruct w as [[[t p] [sd fr mo] [tl ta] [la ld vm]] tr].
    do 2 run_call. run_each. unfold reset_motion, emit. close_run. }
  rewrite E in Hrun. injection Hrun as <-. cbn [trace].
  eexists. eexists. split; [reflexivity|]. split; reflexivity.
Qed.

Lemma front_settle_stops (a : float) :
  Procedures.stops_and_resets
    (set_target_angular_speed 0%Q ;; set_target_linear_speed 0%Q ;;
     each 2 log_front_sensors_calibration 200 ;; set_linear_acceleration a ;; reset_motion).
Proof.
  intros w w' Hrun.
  assert (E : (set_target_angular_speed 0%Q ;; set_target_linear_speed 0%Q ;;
               each 2 log_front_sensors_calibration 200 ;;
               set_linear_acceleration a ;; reset_motion) w
              = Done tt (mk_world (with_acceleration a (elapsed 200 (commanding 0%Q 0%Q (now w))))
                  ((((trace w
                      ++ [(now w, SetTargetAngularSpeed 0%Q);
                          (with_tgt (fun t => mk_targets (target_linear_speed t) 0%Q) (now w),
                           SetTargetLinearSpeed 0%Q)])
                     ++ log_entries FrontSensorsCalibration 2 (samples 2 200)
                          (commanding 0%Q 0%Q (now w)))
                    ++ [(elapsed 200 (commanding 0%Q 0%Q (now w)), SetLinearAcceleration a)])
                   ++ [(with_acceleration a (elapsed 200 (commanding 0%Q 0%Q (now w))),
                        ResetMotion)]))).
  { destruct w as [[[t p] [sd fr mo] [tl ta] [la ld vm]] tr].
    do 2 run_call. run_each. run_call. unfold reset_motion, emit.
    unfold with_acceleration. close_run. }
  rewrite E in Hrun. injection Hrun as <-. cbn [trace].
  eexists. eexists. split; [reflexivity|]. split; reflexivity.
Qed.

Ltac peel_call := cbv zeta; apply stops_bind; intros ?.

(** X15. Whenever the linear profile, the angular profile, the static
    turn or the front-sensor calibration returns, whatever the encoder
    read, its last call was [reset_motion], made with both target speeds
    at zero. *)
Theorem returning_profile_has_stopped (fuel : nat) (proc : M unit) (w w' : world) :
  In proc (Procedures.profile_procedures encoder_average_micrometers required_micrometers
             PI CELL_DIMENSION MICROMETERS_PER_METER fuel) ->
  proc w = Done tt w' ->
  exists tr s,
    trace w' = tr ++ [(s, ResetMotion)] /\
    target_linear_speed (tgt s) = 0%Q /\
    target_angular_speed (tgt s) = 0%Q.
Proof.
  intros Hin. revert w w'. change (Procedures.stops_and_resets proc).
  destruct Hin as [<-|[<-|[<-|[<-|[]]]]].
  - unfold run_linear_speed_profile. do 8 peel_call.
    apply (settle_stops LinearSpeed 1 2000); lia.
  - unfold run_angular_speed_profile. do 6 peel_call.
    apply (settle_stops AngularSpeed 10 2000); lia.
  - unfold run_static_turn_right_profile. do 6 peel_call.
    apply (settle_stops AngularSpeed 10 200); lia.
  - unfold run_front_sensors_calibration. do 9 peel_call.
    apply front_settle_stops.
Qed.



End CalibrationRuns.

(** *** Runs on a steady encoder *)

Section SteadyRuns.

Import Calibration.

Lemma linear_travel_ends_at_first_reach_witness :
  exists w',
    run_linear_speed_profile (steady_encoder 300000) 5 rest_world = Done tt w'.
Proof.
  destruct (linear_travel_ends_at_first_reach (steady_encoder 300000) 5 1 rest_world)
    as (w' & _ & _ & Hrun & _).
  - intros k Hk. unfold in_int32, steady_encoder. simpl polls. lia.
  - intros k Hk. unfold steady_encoder. simpl polls. lia.
  - unfold steady_encoder. simpl polls. lia.
  - lia.
  - exists w'. exact Hrun.
Defined.



Lemma steady_reaches_travel_distance :
  reaches_travel_distance (steady_encoder 300000) (polls (clk (now rest_world))) 1.
Proof.
  unfold reaches_travel_distance, in_int32, steady_encoder. simpl polls.
  repeat split; intros; lia.
Defined.

Lemma settle_logging_lasts_configured_duration_witness :
  exists w1 w2 w3,
    run_linear_speed_profile (steady_encoder 300000) 5 rest_world = Done tt w1 /\
    run_angular_speed_profile (355 # 113) rest_world = Done tt w2 /\
    run_static_turn_right_profile (355 # 113) rest_world = Done tt w3.
Proof.
  destruct (settle_logging_lasts_configured_duration (steady_encoder 300000) (355 # 113)
              5 1 rest_world steady_reaches_travel_distance)
    as ((w1 & _ & _ & Hrun1 & _) & (w2 & _ & _ & Hrun2 & _) & (w3 & _ & _ & Hrun3 & _)).
  - lia.
  - exists w1, w2, w3. repeat split; assumption.
Defined.

Lemma steady_front_target :
  front_target_micrometers (steady_encoder 100000) (18 # 100) 1000000%Q (now rest_world)
  = 234000.
Proof. vm_compute. reflexivity. Defined.

Lemma short_cell_front_target :
  front_target_micrometers (steady_encoder 100000) (175 # 1000) 1000000%Q (now rest_world)
  = 227499.
Proof. vm_compute. reflexivity. Defined.

Lemma front_approach_stops_at_threshold_witness :
  exists w',
    run_front_sensors_calibration (steady_encoder 100000) stop_after_4_millimeters
      (175 # 1000) 1000000%Q 5 rest_world = Done tt w'.
Proof.
  destruct (front_approach_stops_at_threshold (steady_encoder 100000)
              stop_after_4_millimeters (175 # 1000) 1000000%Q 5 2 rest_world)
    as (w' & _ & _ & Hrun & _).
  - vm_compute. split; [intros H; discriminate H | reflexivity].
  - vm_compute. split; [intros H; discriminate H | reflexivity].
  - fold (front_target_double (steady_encoder 100000) (175 # 1000) 1000000%Q (now rest_world)).
    fold (front_target_micrometers (steady_encoder 100000) (175 # 1000) 1000000%Q
            (now rest_world)).
    rewrite short_cell_front_target.
    change (in_int32 (227499 - 4000)). unfold in_int32. lia.
  - intros k Hk.
    fold (front_target_double (steady_encoder 100000) (175 # 1000) 1000000%Q (now rest_world)).
    fold (front_target_micrometers (steady_encoder 100000) (175 # 1000) 1000000%Q
            (now rest_world)).
    rewrite short_cell_front_target.
    change (steady_encoder 100000 (0 + k) < 227499 - 4000).
    unfold steady_encoder. lia.
  - fold (front_target_double (steady_encoder 100000) (175 # 1000) 1000000%Q (now rest_world)).
    fold (front_target_micrometers (steady_encoder 100000) (175 # 1000) 1000000%Q
            (now rest_world)).
    rewrite short_cell_front_target.
    change (227499 - 4000 <= steady_encoder 100000 (0 + 3)).
    unfold steady_encoder. simpl. lia.
  - lia.
  - exists w'. exact Hrun.
Defined.

Lemma steady_reaches_stop_threshold :
  reaches_stop_threshold (steady_encoder 100000) stop_after_4_millimeters
    (18 # 100) 1000000%Q (now rest_world) 2.
Proof.
  unfold reaches_stop_threshold. cbv zeta. rewrite steady_front_target.
  change (front_micrometers_to_stop stop_after_4_millimeters (now rest_world)) with 4000.
  unfold in_int32, steady_encoder. simpl polls.
  repeat split; intros; lia.
Defined.

Lemma calibration_restores_configuration_witness :
  exists w1 w2,
    run_micrometers_per_count_calibration (steady_encoder 100000)
      (18 # 100) (12 # 1000) (4 # 100) (5 # 100) 3 rest_world = Done tt w1 /\
    cfg (now w1) = mk_config 2%Q 2%Q (1 # 2) /\
    run_front_sensors_calibration (steady_encoder 100000) stop_after_4_millimeters
      (18 # 100) 1000000%Q 5 rest_world = Done tt w2 /\
    linear_acceleration (cfg (now w2)) = 2%Q.
Proof.
  destruct (calibration_restores_configuration (steady_encoder 100000)
              stop_after_4_millimeters (18 # 100) (12 # 1000) (4 # 100) (5 # 100)
              1000000%Q 3 5 2 rest_world steady_reaches_stop_threshold)
    as ((w1 & Hrun1 & Ha & Hd & Hm) & (w2 & Hrun2 & Ha2)).
  - lia.
  - exists w1, w2. split; [exact Hrun1|]. split.
    + destruct (cfg (now w1)) as [a d m]. simpl in Ha, Hd, Hm. subst. reflexivity.
    + split; [exact Hrun2|exact Ha2].
Defined.

(** In the micrometers-per-count calibration the acceleration ramp, a
    motion command, is made with side-sensor control switched on. *)
Lemma micrometers_ramp_runs_with_side_control :
  ~ motion_guarded
      (trace (final (run_micrometers_per_count_calibration (steady_encoder 0)
                       (18 # 100) (12 # 1000) (4 # 100) (5 # 100) 1 rest_world))).
Proof.
  rewrite micrometers_calibration_run. cbn [final trace app rest_world].
  unfold motion_guarded, micrometers_calibration_trace. cbv zeta.
  intros H.
  repeat match type of H with
         | Forall _ ((_, Accelerate _ _) :: _) => fail 1
         | Forall _ (_ :: _) => apply Forall_inv_tail in H
         end.
  apply Forall_inv in H. destruct (H eq_refl) as (Hside & _).
  discriminate Hside.
Qed.

End SteadyRuns.

(** ** The motor driver, the status LED and the PWM *)

Section BoardFacts.

Import Board.

Lemma testbit_GPIO n i : 0 <= n -> Z.testbit (GPIO n) i = (n =? i).
Proof.
  intros Hn. unfold GPIO. rewrite Z.shiftl_1_l. apply Z.pow2_bits_eqb. exact Hn.
Qed.

Ltac pin_bits :=
  unfold drive_forward, drive_backward, drive_break, gpio_set, gpio_clear, gpio_toggle,
    GPIO12, GPIO13, GPIO14, GPIO15;
  repeat first [rewrite Z.lor_spec | rewrite Z.ldiff_spec | rewrite Z.lxor_spec
               | rewrite testbit_GPIO by lia].

Ltac pin_cases i :=
  destruct (Z.eqb_spec 12 i); destruct (Z.eqb_spec 13 i);
  destruct (Z.eqb_spec 14 i); destruct (Z.eqb_spec 15 i);
  subst; try lia;
  repeat match goal with
         | |- context [Z.testbit ?a ?b] => destruct (Z.testbit a b)
         end;
  reflexivity.

(** X4. Whatever port B held, [drive_forward] leaves pins 12 and 14 high
    and pins 13 and 15 low, [drive_backward] the opposite, and
    [drive_break] all four high; every other pin of the port keeps its
    level. *)
Theorem drive_sets_only_driver_pins (gpiob i : Z) :
  Z.testbit (drive_forward gpiob) i
    = (if (12 =? i) || (14 =? i) then true
       else if (13 =? i) || (15 =? i) then false
       else Z.testbit gpiob i) /\
  Z.testbit (drive_backward gpiob) i
    = (if (13 =? i) || (15 =? i) then true
       else if (12 =? i) || (14 =? i) then false
       else Z.testbit gpiob i) /\
  Z.testbit (drive_break gpiob) i
    = (if (12 =? i) || (13 =? i) || (14 =? i) || (15 =? i) then true
       else Z.testbit gpiob i).
Proof.
  split; [|split]; pin_bits; pin_cases i.
Qed.

(** X5. A change of direction clears before it sets: whatever port B
    held, no write of [drive_forward] or [drive_backward] leaves a
    forward input and a backward input of the driver high together,
    which is the state [drive_break] sets. *)
Theorem direction_change_never_shorts (gpiob : Z) :
  Forall (fun odr => shorted odr = false)
         (drive_forward_writes gpiob ++ drive_backward_writes gpiob) /\
  shorted (drive_break gpiob) = true.
Proof.
  split.
  - unfold drive_forward_writes, drive_backward_writes. cbn [app].
    repeat constructor; unfold shorted; pin_bits;
      repeat match goal with
             | |- context [Z.testbit ?a ?b] => destruct (Z.testbit a b)
             end; reflexivity.
  - unfold shorted. pin_bits.
    repeat match goal with
           | |- context [Z.testbit ?a ?b] => destruct (Z.testbit a b)
           end; reflexivity.
Qed.

(** X6. After [n] SysTick interrupts pin 13 of port C has changed level
    exactly when [n] is odd, and no other pin of the port has changed. *)
Theorem sys_tick_blinks (gpioc : Z) (n : nat) (i : Z) :
  Z.testbit (Nat.iter n sys_tick_handler gpioc) i
  = (if 13 =? i then xorb (Z.testbit gpioc 13) (Nat.odd n) else Z.testbit gpioc i).
Proof.
  induction n as [|n IH].
  - cbn [Nat.iter nat_rect]. change (Nat.odd 0) with false.
    destruct (Z.eqb_spec 13 i); subst; [|reflexivity].
    destruct (Z.testbit gpioc 13); reflexivity.
  - change (Nat.iter (S n) sys_tick_handler gpioc)
      with (sys_tick_handler (Nat.iter n sys_tick_handler gpioc)).
    unfold sys_tick_handler at 1, gpio_toggle, GPIO13.
    rewrite Z.lxor_spec, testbit_GPIO by lia. rewrite IH.
    rewrite Nat.odd_succ, <- Nat.negb_odd.
    destruct (Z.eqb_spec 13 i); subst.
    + destruct (Z.testbit gpioc 13), (Nat.odd n); reflexivity.
    + destruct (Z.testbit gpioc i); reflexivity.
Qed.

Lemma count_below (p : Z) (n : nat) :
  0 <= p ->
  Z.of_nat (length (filter (fun c => c <? p) (map Z.of_nat (seq 0 n))))
  = Z.min p (Z.of_nat n).
Proof.
  intros Hp. induction n as [|n IH].
  - simpl. lia.
  - rewrite seq_S, map_app, filter_app, length_app, Nat2Z.inj_add, IH.
    cbn [Nat.add map filter].
    destruct (Z.ltb_spec (Z.of_nat n) p); simpl; lia.
Qed.

(** X7. After [setup_pwm], setting the left power to [l] and the right
    power to [r] (16-bit values) makes the left output active during
    [min l 1001] and the right output during [min r 1001] of the 1001
    counter values of a period: the two settings do not disturb each
    other, a power of 0 keeps the output inactive and a power of 1000
    leaves it inactive for one counter value in each period. *)
Theorem power_sets_active_ticks (t : pwm_timer) (l r : Z) :
  0 <= l < 65536 ->
  0 <= r < 65536 ->
  let t' := power_right (power_left (setup_pwm t) l) r in
  Z.of_nat (length (counter_values t')) = 1001 /\
  active_ticks (left_active t') t' = Z.min l 1001 /\
  active_ticks (right_active t') t' = Z.min r 1001 /\
  power_left (power_right (setup_pwm t) r) l = t'.
Proof.
  intros Hl Hr t'.
  assert (Hleft : forall c, left_active t' c = (c <? l)).
  { intros c. unfold left_active, pwm1_active, t'. simpl.
    unfold wrap16. rewrite Z.mod_small by lia. reflexivity. }
  assert (Hright : forall c, right_active t' c = (c <? r)).
  { intros c. unfold right_active, pwm1_active, t'. simpl.
    unfold wrap16. rewrite Z.mod_small by lia. reflexivity. }
  assert (Hv : counter_values t' = map Z.of_nat (seq 0 1001)) by reflexivity.
  split; [|split; [|split]].
  - rewrite Hv, length_map, length_seq. reflexivity.
  - unfold active_ticks. rewrite Hv.
    rewrite (filter_ext _ _ Hleft). rewrite count_below by lia. reflexivity.
  - unfold active_ticks. rewrite Hv.
    rewrite (filter_ext _ _ Hright). rewrite count_below by lia. reflexivity.
  - reflexivity.
Qed.

End BoardFacts.

(** ** Console output *)

Section ConsoleFacts.

Import Board.

Lemma send_all (f : nat -> Z) (ids : list nat) :
  forall c,
    fold_left (fun c i => usart_send_blocking c (f i)) ids c
    = mk_console (usart3_sent c ++ map (fun i => Z.land (f i) 511) ids) (errno c).
Proof.
  induction ids as [|i ids IH]; intros c.
  - simpl. rewrite app_nil_r. destruct c; reflexivity.
  - simpl. rewrite IH. simpl. rewrite <- app_assoc. reflexivity.
Qed.

Lemma nth_prefix (ptr : list Z) :
  forall n, (n <= length ptr)%nat ->
    map (fun i => nth i ptr 0) (seq 0 n) = firstn n ptr.
Proof.
  induction ptr as [|a ptr IH]; intros n Hn.
  - simpl in Hn. replace n with 0%nat by lia. reflexivity.
  - destruct n as [|n]; [reflexivity|].
    cbn [seq map firstn nth]. f_equal.
    rewrite <- seq_shift, map_map. apply IH. simpl in Hn. lia.
Qed.

Lemma write_stdout (ptr : list Z) (len : Z) (c : console) :
  (Z.to_nat len <= length ptr)%nat ->
  _write 1 ptr len c
  = (Z.max 0 len,
     mk_console (usart3_sent c ++ map (fun b => Z.land b 511) (firstn (Z.to_nat len) ptr))
                (errno c)).
Proof.
  intros Hlen. unfold _write. simpl (1 =? 1). cbv iota.
  rewrite send_all. f_equal; [lia|]. f_equal. f_equal.
  rewrite <- (nth_prefix ptr _ Hlen), map_map. reflexivity.
Qed.

(** X1. Writing [len] characters of a buffer that holds at least that
    many to file 1 sends exactly the first [len] characters over the
    USART, in order and after what was sent before, returns [len] and
    leaves [errno] alone; with a [len] of zero or less it sends nothing
    and returns 0. *)
Theorem write_sends_prefix (ptr : list Z) (len : Z) (c : console) :
  len <= Z.of_nat (length ptr) ->
  let (result, c') := _write 1 ptr len c in
  result = Z.max 0 len /\
  usart3_sent c' = usart3_sent c
                   ++ map (fun b => Z.land b 511) (firstn (Z.to_nat len) ptr) /\
  errno c' = errno c /\
  (len <= 0 -> usart3_sent c' = usart3_sent c).
Proof.
  intros Hlen. rewrite write_stdout by lia.
  repeat split. intros Hneg.
  replace (Z.to_nat len) with 0%nat by lia. simpl. apply app_nil_r.
Qed.

(** X3. Writing two buffers to file 1 one after the other sends the same
    characters as writing their concatenation at once, and the returned
    counts add up. *)
Theorem write_composes (a b : list Z) (c : console) :
  let la := Z.of_nat (length a) in
  let lb := Z.of_nat (length b) in
  snd (_write 1 b lb (snd (_write 1 a la c))) = snd (_write 1 (a ++ b) (la + lb) c) /\
  fst (_write 1 a la c) + fst (_write 1 b lb (snd (_write 1 a la c)))
  = fst (_write 1 (a ++ b) (la + lb) c).
Proof.
  intros la lb.
  rewrite (write_stdout a la c) by (unfold la; lia).
  rewrite (write_stdout b lb) by (unfold lb; lia).
  rewrite (write_stdout (a ++ b) (la + lb) c) by (rewrite length_app; unfold la, lb; lia).
  cbn [fst snd usart3_sent errno]. split; [|lia].
  f_equal. rewrite <- app_assoc. f_equal. rewrite <- map_app. f_equal.
  unfold la, lb. rewrite Nat2Z.id, Nat2Z.id.
  replace (Z.to_nat (Z.of_nat (length a) + Z.of_nat (length b)))
    with (length (a ++ b)) by (rewrite length_app; lia).
  rewrite !firstn_all. reflexivity.
Qed.

End ConsoleFacts.

(** ** The sensor globals *)

Section SensorGlobals.

Import Setup.

(** X8. The completion handler clears the injected end-of-conversion
    flag and no other bit of the status register, and leaves the four
    injected data registers and the injected sequence as they are; run
    after a completed sweep, it leaves the flag that sweep raised
    cleared. *)
Theorem isr_acknowledges_only_jeoc (m : machine) (analog : Z -> Z) (i : Z) :
  Z.testbit (ADC_SR (adc1 (adc1_2_isr m))) i
    = (if 2 =? i then false else Z.testbit (ADC_SR (adc1 m)) i) /\
  map (adc_read_injected (adc1 (adc1_2_isr m))) [1; 2; 3; 4]
    = map (adc_read_injected (adc1 m)) [1; 2; 3; 4] /\
  injected_sequence (adc1 (adc1_2_isr m)) = injected_sequence (adc1 m) /\
  Z.testbit (ADC_SR (complete_sweep analog (adc1 m))) 2 = true /\
  Z.testbit (ADC_SR (adc1 (adc1_2_isr
                             (mk_machine (complete_sweep analog (adc1 m)) (globals m))))) 2
    = false.
Proof.
  assert (Hbit : forall j, Z.testbit ADC_SR_JEOC j = (2 =? j)).
  { intros j. unfold ADC_SR_JEOC. rewrite Z.shiftl_1_l. apply Z.pow2_bits_eqb. lia. }
  split; [|split; [|split; [|split]]].
  - unfold adc1_2_isr. cbn [adc1 ADC_SR].
    destruct (Z.eqb_spec 2 i) as [E|E].
    + subst. rewrite Z.land_spec, Z.lnot_spec, Hbit by lia.
      destruct (Z.testbit (ADC_SR (adc1 m)) 2); reflexivity.
    + destruct (Z.neg_nonneg_cases i) as [Hi|Hi].
      * rewrite !Z.testbit_neg_r by exact Hi. reflexivity.
      * rewrite Z.land_spec, Z.lnot_spec, Hbit by exact Hi.
        destruct (Z.eqb_spec 2 i); [contradiction|].
        destruct (Z.testbit (ADC_SR (adc1 m)) i); reflexivity.
  - reflexivity.
  - reflexivity.
  - unfold complete_sweep. cbn [ADC_SR]. rewrite Z.lor_spec, Hbit.
    destruct (Z.testbit (ADC_SR (adc1 m)) 2); reflexivity.
  - unfold adc1_2_isr, complete_sweep. cbn [adc1 ADC_SR].
    rewrite Z.land_spec, Z.lnot_spec, Hbit by lia.
    destruct (Z.testbit (Z.lor (ADC_SR (adc1 m)) ADC_SR_JEOC) 2); reflexivity.
Qed.

Lemma loads_in_range (evs : list event) :
  forall m seen,
    Forall in_uint16 (frame_of m) ->
    Forall in_uint16 seen ->
    Forall in_uint16 (snd (fold_left step evs (m, seen))).
Proof.
  induction evs as [|e evs IH]; intros m seen Hm Hseen; [exact Hseen|].
  simpl fold_left. destruct e as [analog|id].
  - apply IH; [|exact Hseen].
    unfold frame_of, adc1_2_isr. simpl.
    repeat constructor; apply Z.mod_pos_bound; lia.
  - apply IH; [exact Hm|].
    apply Forall_app. split; [exact Hseen|]. constructor; [|constructor].
    unfold frame_of in Hm. simpl in Hm.
    inversion Hm as [|? ? H0 Hm1]; subst. inversion Hm1 as [|? ? H1 Hm2]; subst.
    inversion Hm2 as [|? ? H2 Hm3]; subst. inversion Hm3 as [|? ? H3 _]; subst.
    unfold sensor_global.
    destruct id as [|[[|[]|]|[[]|[]|]|]|]; try assumption; unfold in_uint16; lia.
Qed.

(** X9. When the four globals start within 16 bits, every value the
    foreground loads is within 0..65535, whatever sweeps complete in
    between and whatever the analog inputs are. *)
Theorem loads_fit_16_bits (m : machine) (evs : list event) :
  Forall in_uint16 (frame_of m) ->
  Forall in_uint16 (observed evs m).
Proof.
  intros Hm. unfold observed, run. apply loads_in_range; [exact Hm|constructor].
Qed.

End SensorGlobals.

(** ** The encoder timers and the throughput probe *)

Section EncodersAndProbe.

Import Board.

(** X11. [setup_encoders] does not disturb the counters, and from then
    on each reading follows the net count of edges of its own wheel
    modulo 2^16, whatever the other wheel does, and never leaves
    0..65535 although the readers return 32-bit values. *)
Theorem encoder_readings_follow_wheels (e : encoders) (left right : list Encoder.edge) :
  0 <= read_encoder_left e <= 65535 ->
  0 <= read_encoder_right e <= 65535 ->
  let e' := turn_wheels left right (setup_encoders e) in
  read_encoder_left (setup_encoders e) = read_encoder_left e /\
  read_encoder_right (setup_encoders e) = read_encoder_right e /\
  read_encoder_left e' = (read_encoder_left e + Encoder.net_edges left) mod 2 ^ 16 /\
  read_encoder_right e' = (read_encoder_right e + Encoder.net_edges right) mod 2 ^ 16 /\
  in_uint16 (read_encoder_left e') /\
  in_uint16 (read_encoder_right e').
Proof.
  intros Hl Hr e'.
  pose proof (count_edges_mod left _ (configure_ready (TIM1 e) Hl)) as (_ & Hcl).
  pose proof (count_edges_mod right _ (configure_ready (TIM4 e) Hr)) as (_ & Hcr).
  unfold Encoder.read_encoder in Hcl, Hcr.
  assert (El : read_encoder_left e'
               = (read_encoder_left e + Encoder.net_edges left) mod 2 ^ 16)
    by exact Hcl.
  assert (Er : read_encoder_right e'
               = (read_encoder_right e + Encoder.net_edges right) mod 2 ^ 16)
    by exact Hcr.
  split; [reflexivity|]. split; [reflexivity|]. split; [exact El|]. split; [exact Er|].
  unfold in_uint16. rewrite El, Er.
  split; apply Z.mod_pos_bound; lia.
Qed.

Import Profiling.

Lemma total_cost_S cost k n :
  total_cost cost k (S n) = total_cost cost k n + cost (k + n)%nat.
Proof.
  unfold total_cost. rewrite seq_S, map_app, fold_right_app. cbn [map fold_right].
  generalize (map cost (seq k n)). intros l.
  induction l as [|x l IH]; cbn [fold_right]; [lia|]. rewrite IH. lia.
Qed.

Lemma transforms_iterated cost n b :
  Nat.iter n (update_distance_readings cost) b
  = mk_bench (ticks b + total_cost cost (transforms b) n) (transforms b + n) (logged b).
Proof.
  induction n as [|n IH].
  - destruct b as [t k l]. cbn [Nat.iter nat_rect ticks transforms logged].
    unfold total_cost. cbn [seq map fold_right].
    rewrite Z.add_0_r, Nat.add_0_r. reflexivity.
  - change (Nat.iter (S n) (update_distance_readings cost) b)
      with (update_distance_readings cost (Nat.iter n (update_distance_readings cost) b)).
    rewrite IH. unfold update_distance_readings. cbn [ticks transforms logged].
    rewrite total_cost_S. f_equal; lia.
Qed.

(** X12. The throughput probe makes exactly 1000 transforms and logs one
    value, the ticks they took: when that total is below 2^32 the value
    is exact wherever the 32-bit tick counter stood at the start, also
    when the counter wraps during the run. *)
Theorem probe_logs_elapsed_ticks (cost : nat -> Z) (b : bench) :
  0 <= total_cost cost (transforms b) 1000 < 2 ^ 32 ->
  let b' := run_distances_profiling cost b in
  logged b' = logged b ++ [total_cost cost (transforms b) 1000] /\
  transforms b' = (transforms b + 1000)%nat /\
  ticks b' = ticks b + total_cost cost (transforms b) 1000.
Proof.
  intros Htotal b'. unfold b', run_distances_profiling. cbv zeta.
  rewrite transforms_iterated. unfold LOG_INFO, get_clock_ticks.
  cbn [ticks transforms logged].
  split; [|split; reflexivity].
  do 2 f_equal. unfold wrap32.
  rewrite <- Zminus_mod, Z.mod_small; [lia|].
  replace (ticks b + total_cost cost (transforms b) 1000 - ticks b)
    with (total_cost cost (transforms b) 1000) by lia.
  exact Htotal.
Qed.

End EncodersAndProbe.

(** ** Concrete runs *)

Section ConcreteRuns.

Import Board Setup Profiling Calibration.

Lemma write_sends_prefix_witness :
  _write 1 [72; 105; 33] 2 (mk_console [] 0) = (2, mk_console [72; 105] 0).
Proof.
  pose proof (write_sends_prefix [72; 105; 33] 2 (mk_console [] 0)) as H.
  assert (Hlen : 2 <= Z.of_nat (length [72; 105; 33])) by (simpl; lia).
  specialize (H Hlen).
  destruct (_write 1 [72; 105; 33] 2 (mk_console [] 0)) as [result [sent e]].
  destruct H as (Hres & Hsent & Herr & _). simpl in Hres, Hsent, Herr.
  subst. reflexivity.
Defined.

Lemma power_sets_active_ticks_witness :
  let t := power_right (power_left
             (setup_pwm (mk_pwm_timer 0 0 0 0 0 false false 0 TIM_OCM_FROZEN TIM_OCM_FROZEN
                           0 0 false false false)) 250) 1000 in
  active_ticks (left_active t) t = 250 /\ active_ticks (right_active t) t = 1000.
Proof.
  destruct (power_sets_active_ticks
              (mk_pwm_timer 0 0 0 0 0 false false 0 TIM_OCM_FROZEN TIM_OCM_FROZEN
                 0 0 false false false) 250 1000)
    as (_ & Hl & Hr & _); [lia | lia |].
  split; [exact Hl | exact Hr].
Defined.

Lemma loads_fit_16_bits_witness :
  Forall in_uint16
    (observed [Sweep (fun ch => 70000 + ch); Load 1; Load 4] idle_machine).
Proof.
  apply (loads_fit_16_bits idle_machine [Sweep (fun ch => 70000 + ch); Load 1; Load 4]).
  repeat constructor; unfold in_uint16; simpl; lia.
Defined.

Lemma encoder_readings_follow_wheels_witness :
  let e := mk_encoders (Encoder.mk_timer 0 0 0 0 false 65535)
                       (Encoder.mk_timer 0 0 0 0 false 0) in
  let e' := turn_wheels [Encoder.Forward; Encoder.Forward] [Encoder.Backward]
                        (setup_encoders e) in
  read_encoder_left e' = 1 /\ read_encoder_right e' = 65535.
Proof.
  destruct (encoder_readings_follow_wheels
              (mk_encoders (Encoder.mk_timer 0 0 0 0 false 65535)
                           (Encoder.mk_timer 0 0 0 0 false 0))
              [Encoder.Forward; Encoder.Forward] [Encoder.Backward])
    as (_ & _ & Hl & Hr & _).
  - unfold read_encoder_left. cbn [TIM1 Encoder.TIM_CNT]. lia.
  - unfold read_encoder_right. cbn [TIM4 Encoder.TIM_CNT]. lia.
  - split; [exact Hl | exact Hr].
Defined.

Lemma probe_logs_elapsed_ticks_witness :
  logged (run_distances_profiling (fun _ => 3) (mk_bench 4294967000 0 [])) = [3000].
Proof.
  destruct (probe_logs_elapsed_ticks (fun _ => 3) (mk_bench 4294967000 0 []))
    as (Hlog & _).
  - vm_compute. split; [discriminate | reflexivity].
  - exact Hlog.
Defined.

Lemma linear_profile_never_returns_witness :
  exists w', run_linear_speed_profile (steady_encoder 0) 7 rest_world = Spin w'.
Proof.
  destruct (linear_profile_never_returns (steady_encoder 0) 7 rest_world)
    as (w' & Hrun & _).
  - intros k Hk. vm_compute. reflexivity.
  - exists w'. exact Hrun.
Defined.

Lemma front_calibration_never_returns_witness :
  exists w',
    run_front_sensors_calibration (steady_encoder 0) stop_after_4_millimeters
      (18 # 100) 1000000%Q 7 rest_world = Spin w'.
Proof.
  destruct (front_calibration_never_returns (steady_encoder 0) stop_after_4_millimeters
              (18 # 100) 1000000%Q 7 rest_world)
    as (w' & Hrun & _).
  - vm_compute. split; [intros H; discriminate H | reflexivity].
  - vm_compute. split; [intros H; discriminate H | reflexivity].
  - vm_compute. split; [intros H; discriminate H | reflexivity].
  - intros k Hk. vm_compute. reflexivity.
  - exists w'. exact Hrun.
Defined.

Lemma returning_profile_has_stopped_witness :
  exists w' tr s,
    run_angular_speed_profile (355 # 113) rest_world = Done tt w' /\
    trace w' = tr ++ [(s, ResetMotion)].
Proof.
  pose proof (angular_profile_run (355 # 113) rest_world) as Hrun. cbv zeta in Hrun.
  destruct (returning_profile_has_stopped (steady_encoder 0) stop_after_4_millimeters
              (355 # 113) (18 # 100) 1000000%Q 7
              (run_angular_speed_profile (355 # 113)) rest_world _
              (or_intror (or_introl eq_refl)) Hrun)
    as (tr & s & Htr & _).
  eexists. exists tr, s. split; [exact Hrun | exact Htr].
Defined.


End ConcreteRuns.
